(** * Friday Night at the ER optimizer: the hourly engine of [er_model.py]

    A shallow embedding of the department/queue data model, the pre-solve
    state transition, the per-hour integer program and the application of
    the solved decision, followed by the properties the specification
    states about them.

    Conventions of the embedding.
    - Python [int] is [Z]; the two [float] objective weights and the
      [float] values handed back by the solver are exact rationals [Q].
    - [DEPARTMENTS] is a fixed tuple of four keys: it is the enumeration
      [Dept].  [GameState.depts] is built by its [default_factory] with
      exactly these four keys and no code adds or removes one, so it is a
      four-field record ([PerDept]); the three dictionaries of [Totals]
      keyed by ("SD", "CC", "SU") are the three-field record [Others].
    - The dictionaries of [HourInput] come from the caller and are read
      with [.get(key, 0)]: they are finite maps ([gmap]) over the
      source's string keys, so that a key may be absent.
    - [optimize_hour] mutates the [GameState] object it is given and
      either raises or returns; it is embedded as a function to the pair
      of the object's contents after the call and the outcome.
    - The MILP solver (PuLP with CBC) is outside the program: it is a
      function from the built problem to a status and a value per
      variable. *)

From Stdlib Require Import ZArith QArith Qround Qabs Lia Lqa String List.
From stdpp Require Import gmap strings.
Import ListNotations.

Local Open Scope string_scope.
Local Open Scope Z_scope.

(** ** Departments and constant tables *)

Inductive Dept : Type := ED | SD | CC | SU.

Definition DEPARTMENTS : list Dept := [ED; SD; CC; SU].

(** The string under which a department appears in the dictionaries. *)
Definition dept_key (d : Dept) : string :=
  match d with ED => "ED" | SD => "SD" | CC => "CC" | SU => "SU" end.

Definition dept_eqb (a b : Dept) : bool :=
  match a, b with
  | ED, ED | SD, SD | CC, CC | SU, SU => true
  | _, _ => false
  end.

Definition TOTAL_ROOMS (d : Dept) : Z :=
  match d with ED => 25 | SD => 30 | CC => 18 | SU => 9 end.

Definition STATE0_PATIENTS (d : Dept) : Z :=
  match d with ED => 16 | SD => 22 | CC => 12 | SU => 4 end.

Definition STATE0_STAFF (d : Dept) : Z :=
  match d with ED => 18 | SD => 24 | CC => 13 | SU => 6 end.

(** The categories of the two unit-cost tables.  A table is read only at
    the keys it has in the source; the other entries are 0 here and are
    never looked up. *)
Inductive Category : Type :=
  diversion | waiting | extra_staff_hours | arrivals_waiting | requests_waiting.

Definition FINANCIAL (d : Dept) (c : Category) : Z :=
  match d, c with
  | ED, diversion => 5000
  | ED, waiting => 150
  | ED, extra_staff_hours => 40
  | ED, _ => 0
  | _, arrivals_waiting => 3750
  | _, extra_staff_hours => 40
  | _, _ => 0
  end.

Definition QUALITY (d : Dept) (c : Category) : Z :=
  match d, c with
  | ED, diversion => 200
  | ED, waiting => 20
  | ED, extra_staff_hours => 5
  | ED, _ => 0
  | _, arrivals_waiting => 20
  | _, requests_waiting => 20
  | _, extra_staff_hours => 5
  | _, _ => 0
  end.

(** ** Data model *)

Record DepartmentState : Type := mkDept {
  patients : Z;
  staff : Z;
  ext_waiting : Z;
  ed_walkin_waiting : Z;
  ed_ambulance_waiting : Z;
  req_waiting_mature : Z;
  req_waiting_new : Z
}.

(** A dictionary with exactly the four department keys. *)
Record PerDept (A : Type) : Type := mkPerDept {
  at_ED : A; at_SD : A; at_CC : A; at_SU : A
}.
Arguments mkPerDept {A} _ _ _ _.
Arguments at_ED {A} _.
Arguments at_SD {A} _.
Arguments at_CC {A} _.
Arguments at_SU {A} _.

Definition pd_get {A} (m : PerDept A) (d : Dept) : A :=
  match d with
  | ED => at_ED m | SD => at_SD m | CC => at_CC m | SU => at_SU m
  end.

Definition pd_set {A} (m : PerDept A) (d : Dept) (x : A) : PerDept A :=
  match d with
  | ED => mkPerDept x (at_SD m) (at_CC m) (at_SU m)
  | SD => mkPerDept (at_ED m) x (at_CC m) (at_SU m)
  | CC => mkPerDept (at_ED m) (at_SD m) x (at_SU m)
  | SU => mkPerDept (at_ED m) (at_SD m) (at_CC m) x
  end.

Definition pd_init {A} (f : Dept -> A) : PerDept A :=
  mkPerDept (f ED) (f SD) (f CC) (f SU).

(** A dictionary with exactly the keys "SD", "CC", "SU". *)
Record Others : Type := mkOthers { o_SD : Z; o_CC : Z; o_SU : Z }.

Record Totals : Type := mkTotals {
  ed_diversions : Z;
  ed_waiting : Z;
  ed_extra_staff : Z;
  dep_arrivals_waiting : Others;
  dep_requests_waiting : Others;
  dep_extra_staff : Others;
  throughput_admitted : Z;
  discharged_out : Z
}.

Definition financial_cost (t : Totals) : Z :=
  let ed :=
    ed_diversions t * FINANCIAL ED diversion
    + ed_waiting t * FINANCIAL ED waiting
    + ed_extra_staff t * FINANCIAL ED extra_staff_hours in
  let others := 0 in
  let others := others + o_SD (dep_arrivals_waiting t) * FINANCIAL SD arrivals_waiting in
  let others := others + o_SD (dep_extra_staff t) * FINANCIAL SD extra_staff_hours in
  let others := others + o_CC (dep_arrivals_waiting t) * FINANCIAL CC arrivals_waiting in
  let others := others + o_CC (dep_extra_staff t) * FINANCIAL CC extra_staff_hours in
  let others := others + o_SU (dep_arrivals_waiting t) * FINANCIAL SU arrivals_waiting in
  let others := others + o_SU (dep_extra_staff t) * FINANCIAL SU extra_staff_hours in
  ed + others.

Definition quality_penalty (t : Totals) : Z :=
  let ed :=
    ed_diversions t * QUALITY ED diversion
    + ed_waiting t * QUALITY ED waiting
    + ed_extra_staff t * QUALITY ED extra_staff_hours in
  let others := 0 in
  let others := others + o_SD (dep_arrivals_waiting t) * QUALITY SD arrivals_waiting in
  let others := others + o_SD (dep_requests_waiting t) * QUALITY SD requests_waiting in
  let others := others + o_SD (dep_extra_staff t) * QUALITY SD extra_staff_hours in
  let others := others + o_CC (dep_arrivals_waiting t) * QUALITY CC arrivals_waiting in
  let others := others + o_CC (dep_requests_waiting t) * QUALITY CC requests_waiting in
  let others := others + o_CC (dep_extra_staff t) * QUALITY CC extra_staff_hours in
  let others := others + o_SU (dep_arrivals_waiting t) * QUALITY SU arrivals_waiting in
  let others := others + o_SU (dep_requests_waiting t) * QUALITY SU requests_waiting in
  let others := others + o_SU (dep_extra_staff t) * QUALITY SU extra_staff_hours in
  ed + others.

Record GameState : Type := mkGame {
  hour : Z;
  depts : PerDept DepartmentState;
  totals : Totals
}.

Definition Totals_default : Totals :=
  mkTotals 0 0 0 (mkOthers 0 0 0) (mkOthers 0 0 0) (mkOthers 0 0 0) 0 0.

Definition GameState_default : GameState :=
  mkGame 1
    (pd_init (fun d => mkDept (STATE0_PATIENTS d) (STATE0_STAFF d) 0 0 0 0 0))
    Totals_default.

Record HourInput : Type := mkInput {
  external_arrivals : gmap string Z;
  ed_walkin_arrivals : Z;
  ed_ambulance_arrivals : Z;
  staff_delta : gmap string Z;
  ready_to_exit : gmap string Z;
  destinations : gmap (string * string) Z
}.

(** [m.get(k, 0)] *)
Definition get0 {K} `{Countable K} (m : gmap K Z) (k : K) : Z :=
  default 0 (m !! k).

Definition _clamp_non_negative (value : Z) : Z := Z.max 0 value.

(** In-place update of one department of the state object. *)
Definition dept_of (st : GameState) (d : Dept) : DepartmentState :=
  pd_get (depts st) d.

Definition set_dept (st : GameState) (d : Dept) (x : DepartmentState) : GameState :=
  mkGame (hour st) (pd_set (depts st) d x) (totals st).

Definition with_patients (x : DepartmentState) (v : Z) : DepartmentState :=
  mkDept v (staff x) (ext_waiting x) (ed_walkin_waiting x)
    (ed_ambulance_waiting x) (req_waiting_mature x) (req_waiting_new x).

Definition with_staff (x : DepartmentState) (v : Z) : DepartmentState :=
  mkDept (patients x) v (ext_waiting x) (ed_walkin_waiting x)
    (ed_ambulance_waiting x) (req_waiting_mature x) (req_waiting_new x).

Definition with_ext_waiting (x : DepartmentState) (v : Z) : DepartmentState :=
  mkDept (patients x) (staff x) v (ed_walkin_waiting x)
    (ed_ambulance_waiting x) (req_waiting_mature x) (req_waiting_new x).

Definition with_ed_walkin_waiting (x : DepartmentState) (v : Z) : DepartmentState :=
  mkDept (patients x) (staff x) (ext_waiting x) v
    (ed_ambulance_waiting x) (req_waiting_mature x) (req_waiting_new x).

Definition with_ed_ambulance_waiting (x : DepartmentState) (v : Z) : DepartmentState :=
  mkDept (patients x) (staff x) (ext_waiting x) (ed_walkin_waiting x)
    v (req_waiting_mature x) (req_waiting_new x).

Definition with_req_waiting_mature (x : DepartmentState) (v : Z) : DepartmentState :=
  mkDept (patients x) (staff x) (ext_waiting x) (ed_walkin_waiting x)
    (ed_ambulance_waiting x) v (req_waiting_new x).

Definition with_req_waiting_new (x : DepartmentState) (v : Z) : DepartmentState :=
  mkDept (patients x) (staff x) (ext_waiting x) (ed_walkin_waiting x)
    (ed_ambulance_waiting x) (req_waiting_mature x) v.

(** ** State transition *)

(** One turn of the inner loop [for t in DEPARTMENTS] of the departures,
    for source [d]: the state and the departures still unallocated. *)
Definition route_to (hi : HourInput) (d : Dept)
    (acc : GameState * Z) (t : Dept) : GameState * Z :=
  let '(st, remaining) := acc in
  if dept_eqb t d || (remaining <=? 0) then acc
  else
    let req :=
      Z.min (_clamp_non_negative (get0 (destinations hi) (dept_key d, dept_key t)))
            remaining in
    let tgt := dept_of st t in
    (set_dept st t (with_req_waiting_new tgt (req_waiting_new tgt + req)),
     remaining - req).

(** One turn of the outer loop [for d in DEPARTMENTS]. *)
Definition depart_from (hi : HourInput)
    (acc : GameState * PerDept Z) (d : Dept) : GameState * PerDept Z :=
  let '(st, discharged_out) := acc in
  let requested := _clamp_non_negative (get0 (ready_to_exit hi) (dept_key d)) in
  let actual_departures := Z.min requested (patients (dept_of st d)) in
  let st :=
    set_dept st d
      (with_patients (dept_of st d) (patients (dept_of st d) - actual_departures)) in
  let remaining := actual_departures in
  let out_count :=
    Z.min (_clamp_non_negative (get0 (destinations hi) (dept_key d, "OUT")))
          remaining in
  let remaining := remaining - out_count in
  let discharged_out := pd_set discharged_out d out_count in
  let '(st, remaining) := fold_left (route_to hi d) DEPARTMENTS (st, remaining) in
  let discharged_out :=
    if 0 <? remaining
    then pd_set discharged_out d (pd_get discharged_out d + remaining)
    else discharged_out in
  (st, discharged_out).

Definition _apply_departures_and_requests (st : GameState) (hi : HourInput)
    : GameState * PerDept Z :=
  fold_left (depart_from hi) DEPARTMENTS (st, pd_init (fun _ => 0)).

Definition roll_one (st : GameState) (d : Dept) : GameState :=
  let dept := dept_of st d in
  let dept := with_req_waiting_mature dept (req_waiting_mature dept + req_waiting_new dept) in
  let dept := with_req_waiting_new dept 0 in
  set_dept st d dept.

Definition _roll_request_age (st : GameState) : GameState :=
  fold_left roll_one DEPARTMENTS st.

(** Step 3 of [optimize_hour], one department: external arrivals and the
    staffing shock. *)
Definition arrive_one (hi : HourInput) (st : GameState) (d : Dept) : GameState :=
  let dept := dept_of st d in
  let dept :=
    if dept_eqb d ED then
      let dept :=
        with_ed_walkin_waiting dept
          (ed_walkin_waiting dept + _clamp_non_negative (ed_walkin_arrivals hi)) in
      with_ed_ambulance_waiting dept
        (ed_ambulance_waiting dept + _clamp_non_negative (ed_ambulance_arrivals hi))
    else
      with_ext_waiting dept
        (ext_waiting dept
         + _clamp_non_negative (get0 (external_arrivals hi) (dept_key d))) in
  let dept :=
    with_staff dept
      (_clamp_non_negative (staff dept + get0 (staff_delta hi) (dept_key d))) in
  set_dept st d dept.

Definition apply_arrivals_and_staff (hi : HourInput) (st : GameState) : GameState :=
  fold_left (arrive_one hi) DEPARTMENTS st.

(** Steps 1 to 3 of [optimize_hour]: everything done to the state before
    the program is built, with the per-department discharge counts. *)
Definition pre_solve (st : GameState) (hi : HourInput) : GameState * PerDept Z :=
  let st := _roll_request_age st in
  let '(st, discharged_out_by_dept) := _apply_departures_and_requests st hi in
  (apply_arrivals_and_staff hi st, discharged_out_by_dept).

(** ** The per-hour integer program *)

(** The decision variables; every one is created with [lowBound=0] and
    [cat="Integer"]. *)
Inductive Var : Type :=
  | admit_ext (d : Dept)
  | admit_ed_walkin
  | admit_ed_ambulance
  | admit_req (d : Dept)
  | extra_staff (d : Dept)
  | divert_ed.

Definition all_vars : list Var :=
  map admit_ext DEPARTMENTS ++ [admit_ed_walkin; admit_ed_ambulance]
  ++ map admit_req DEPARTMENTS ++ map extra_staff DEPARTMENTS ++ [divert_ed].

(** Affine expressions over the variables, as PuLP builds them with
    [+], [-] and [*]. *)
Inductive LinExpr : Type :=
  | Const (c : Z)
  | Of (v : Var)
  | Plus (e1 e2 : LinExpr)
  | Minus (e1 e2 : LinExpr)
  | Times (k : Z) (e : LinExpr).

Inductive Sense : Type := LE | EQ.

Record Constraint : Type := mkConstraint {
  c_name : string;
  c_lhs : LinExpr;
  c_sense : Sense;
  c_rhs : LinExpr
}.

(** The objective is [financial + quality_weight * quality
    - flow_reward * throughput]; the three affine parts have integer
    coefficients, the two weights are the caller's floats. *)
Record LpProblem : Type := mkProblem {
  lp_hour : Z;                      (* the problem is named fnater_hour_<hour> *)
  lp_constraints : list Constraint;
  lp_financial : LinExpr;
  lp_quality : LinExpr;
  lp_throughput : LinExpr;
  lp_quality_weight : Q;
  lp_flow_reward : Q
}.

Fixpoint eval (a : Var -> Z) (e : LinExpr) : Z :=
  match e with
  | Const c => c
  | Of v => a v
  | Plus e1 e2 => eval a e1 + eval a e2
  | Minus e1 e2 => eval a e1 - eval a e2
  | Times k e => k * eval a e
  end.

Fixpoint evalQ (x : Var -> Q) (e : LinExpr) : Q :=
  match e with
  | Const c => inject_Z c
  | Of v => x v
  | Plus e1 e2 => (evalQ x e1 + evalQ x e2)%Q
  | Minus e1 e2 => (evalQ x e1 - evalQ x e2)%Q
  | Times k e => (inject_Z k * evalQ x e)%Q
  end.

Definition holdsb (a : Var -> Z) (c : Constraint) : bool :=
  match c_sense c with
  | LE => eval a (c_lhs c) <=? eval a (c_rhs c)
  | EQ => eval a (c_lhs c) =? eval a (c_rhs c)
  end.

(** An integer point satisfies the program: lower bounds and constraints. *)
Definition feasibleb (p : LpProblem) (a : Var -> Z) : bool :=
  forallb (fun v => 0 <=? a v) all_vars && forallb (holdsb a) (lp_constraints p).

Definition feasible (p : LpProblem) (a : Var -> Z) : Prop :=
  feasibleb p a = true.

(** The value of the objective at a point with float coordinates. *)
Definition objective_at (p : LpProblem) (x : Var -> Q) : Q :=
  (evalQ x (lp_financial p)
   + lp_quality_weight p * evalQ x (lp_quality p)
   - lp_flow_reward p * evalQ x (lp_throughput p))%Q.

Definition objective (p : LpProblem) (a : Var -> Z) : Q :=
  objective_at p (fun v => inject_Z (a v)).

(** [a] is an optimal solution of the minimisation. *)
Definition optimal (p : LpProblem) (a : Var -> Z) : Prop :=
  feasible p a /\ forall b, feasible p b -> (objective p a <= objective p b)%Q.

Definition lpSum (es : list LinExpr) : LinExpr :=
  fold_left Plus es (Const 0).

Definition queue_bounds (st : GameState) (d : Dept) : list Constraint :=
  let dept := dept_of st d in
  [ if negb (dept_eqb d ED)
    then mkConstraint ("ext_admit_bound_" ++ dept_key d)
           (Of (admit_ext d)) LE (Const (ext_waiting dept))
    else mkConstraint "ed_ext_disabled" (Of (admit_ext d)) EQ (Const 0);
    mkConstraint ("req_admit_bound_" ++ dept_key d)
      (Of (admit_req d)) LE (Const (req_waiting_mature dept)) ].

Definition ed_bounds (st : GameState) : list Constraint :=
  [ mkConstraint "ed_walkin_admit_bound"
      (Of admit_ed_walkin) LE (Const (ed_walkin_waiting (dept_of st ED)));
    mkConstraint "ed_ambulance_admit_bound"
      (Of admit_ed_ambulance) LE (Const (ed_ambulance_waiting (dept_of st ED)));
    mkConstraint "ed_divert_bound"
      (Of divert_ed) LE (Const (ed_ambulance_waiting (dept_of st ED)));
    mkConstraint "ed_arrival_split"
      (Plus (Of admit_ed_ambulance) (Of divert_ed)) LE
      (Const (ed_ambulance_waiting (dept_of st ED))) ].

Definition patients_end (st : GameState) (d : Dept) : LinExpr :=
  let ext_admit_term :=
    if dept_eqb d ED then Plus (Of admit_ed_walkin) (Of admit_ed_ambulance)
    else Of (admit_ext d) in
  Plus (Plus (Const (patients (dept_of st d))) ext_admit_term) (Of (admit_req d)).

Definition capacity_constraints (st : GameState) (d : Dept) : list Constraint :=
  [ mkConstraint ("room_capacity_" ++ dept_key d)
      (patients_end st d) LE (Const (TOTAL_ROOMS d));
    mkConstraint ("staff_capacity_" ++ dept_key d)
      (patients_end st d) LE
      (Plus (Const (staff (dept_of st d))) (Of (extra_staff d))) ].

Definition ext_wait_end (st : GameState) (d : Dept) : LinExpr :=
  Minus (Const (ext_waiting (dept_of st d))) (Of (admit_ext d)).

Definition ed_walkin_wait_end (st : GameState) : LinExpr :=
  Minus (Const (ed_walkin_waiting (dept_of st ED))) (Of admit_ed_walkin).

Definition ed_ambulance_wait_end (st : GameState) : LinExpr :=
  Minus (Minus (Const (ed_ambulance_waiting (dept_of st ED))) (Of admit_ed_ambulance))
        (Of divert_ed).

Definition req_wait_end (st : GameState) (d : Dept) : LinExpr :=
  Plus (Minus (Const (req_waiting_mature (dept_of st d))) (Of (admit_req d)))
       (Const (req_waiting_new (dept_of st d))).

Definition ed_waiting_end (st : GameState) : LinExpr :=
  Plus (Plus (ed_walkin_wait_end st) (ed_ambulance_wait_end st)) (req_wait_end st ED).

Definition financial_expr (st : GameState) : LinExpr :=
  let financial :=
    Plus (Plus (Times (FINANCIAL ED diversion) (Of divert_ed))
               (Times (FINANCIAL ED waiting) (ed_waiting_end st)))
         (Times (FINANCIAL ED extra_staff_hours) (Of (extra_staff ED))) in
  fold_left
    (fun financial d =>
       let financial :=
         Plus financial (Times (FINANCIAL d arrivals_waiting) (ext_wait_end st d)) in
       Plus financial (Times (FINANCIAL d extra_staff_hours) (Of (extra_staff d))))
    [SD; CC; SU] financial.

Definition quality_expr (st : GameState) : LinExpr :=
  let quality :=
    Plus (Plus (Times (QUALITY ED diversion) (Of divert_ed))
               (Times (QUALITY ED waiting) (ed_waiting_end st)))
         (Times (QUALITY ED extra_staff_hours) (Of (extra_staff ED))) in
  fold_left
    (fun quality d =>
       let quality :=
         Plus quality (Times (QUALITY d arrivals_waiting) (ext_wait_end st d)) in
       let quality :=
         Plus quality (Times (QUALITY d requests_waiting) (req_wait_end st d)) in
       Plus quality (Times (QUALITY d extra_staff_hours) (Of (extra_staff d))))
    [SD; CC; SU] quality.

Definition throughput_expr : LinExpr :=
  Plus (Plus (Plus (Of admit_ed_walkin) (Of admit_ed_ambulance))
             (lpSum (map (fun d => Of (admit_ext d)) [SD; CC; SU])))
       (lpSum (map (fun d => Of (admit_req d)) DEPARTMENTS)).

(** Step 4 of [optimize_hour] up to the call of the solver. *)
Definition build_problem (st : GameState) (quality_weight flow_reward : Q) : LpProblem :=
  mkProblem (hour st)
    (flat_map (queue_bounds st) DEPARTMENTS
     ++ ed_bounds st
     ++ flat_map (capacity_constraints st) DEPARTMENTS)
    (financial_expr st) (quality_expr st) throughput_expr
    quality_weight flow_reward.

(** ** The solver interface *)

Inductive LpStatus : Type :=
  | LpStatusNotSolved | LpStatusOptimal | LpStatusInfeasible
  | LpStatusUnbounded | LpStatusUndefined.

Record LpResult : Type := mkResult {
  lp_status : LpStatus;
  lp_values : Var -> Q            (* pulp.value of each variable *)
}.

Definition Solver : Type := LpProblem -> LpResult.

(** Python's [round] on a float: to the nearest integer, ties to even. *)
Definition py_round (x : Q) : Z :=
  let f := Qfloor x in
  match Qcompare (x - inject_Z f) (1 # 2) with
  | Lt => f
  | Gt => f + 1
  | Eq => if Z.even f then f else f + 1
  end.

(** [int(round(pulp.value(v)))] for every variable. *)
Definition rounded (x : Var -> Q) : Var -> Z := fun v => py_round (x v).

(** ** Decision application *)

(** One department's entry of [decisions]; the last three keys exist
    only in the Emergency entry. *)
Record Decision : Type := mkDecision {
  admit_external : Z;
  admit_requests : Z;
  call_extra_staff : Z;
  admit_walkins : option Z;
  admit_ambulance : option Z;
  divert_ambulances : option Z
}.

Record ObjectiveInfo : Type := mkInfo {
  financial_total : Z;
  quality_total : Z;
  admitted_this_hour : Z;
  discharged_out_this_hour : Z;
  objective_value : Q
}.

(** What the caller observes besides the mutated state object. *)
Inductive Outcome : Type :=
  | Raised (at_hour : Z) (status : LpStatus)      (* RuntimeError *)
  | Returned (decisions : PerDept Decision) (info : ObjectiveInfo).

(** One turn of the loop of step 5, with the rounded values [value]. *)
Definition apply_one (value : Var -> Z)
    (acc : GameState * PerDept Decision) (d : Dept) : GameState * PerDept Decision :=
  let '(st, decisions) := acc in
  let ae := if dept_eqb d ED then 0 else value (admit_ext d) in
  let ar := value (admit_req d) in
  let es := value (extra_staff d) in
  let dept := dept_of st d in
  let ae_walkin := value admit_ed_walkin in
  let ae_ambulance := value admit_ed_ambulance in
  let ae := if dept_eqb d ED then ae_walkin + ae_ambulance else ae in
  let dept :=
    if dept_eqb d ED then
      let dept := with_patients dept (patients dept + ae_walkin + ae_ambulance + ar) in
      let dept := with_ed_walkin_waiting dept (ed_walkin_waiting dept - ae_walkin) in
      with_ed_ambulance_waiting dept (ed_ambulance_waiting dept - ae_ambulance)
    else
      let dept := with_patients dept (patients dept + ae + ar) in
      with_ext_waiting dept (ext_waiting dept - ae) in
  let dept := with_req_waiting_mature dept (req_waiting_mature dept - ar) in
  let dept := with_staff dept (staff dept + es) in
  let rec :=
    if dept_eqb d ED
    then mkDecision ae ar es (Some ae_walkin) (Some ae_ambulance) None
    else mkDecision ae ar es None None None in
  (set_dept st d dept, pd_set decisions d rec).

Definition with_divert (r : Decision) (v : Z) : Decision :=
  mkDecision (admit_external r) (admit_requests r) (call_extra_staff r)
    (admit_walkins r) (admit_ambulance r) (Some v).

Definition others_add (o : Others) (f : Dept -> Z) : Others :=
  mkOthers (o_SD o + f SD) (o_CC o + f CC) (o_SU o + f SU).

Definition pd_values {A} (m : PerDept A) : list A :=
  [at_ED m; at_SD m; at_CC m; at_SU m].

Definition sumZ (l : list Z) : Z := fold_left Z.add l 0.

(** Step 6: the running totals, read off the state after step 5. *)
Definition update_totals (st : GameState) (decisions : PerDept Decision)
    (ed_div admitted_total discharged_out_total : Z) : Totals :=
  let t := totals st in
  mkTotals
    (ed_diversions t + ed_div)
    (ed_waiting t
     + (ed_walkin_waiting (dept_of st ED)
        + ed_ambulance_waiting (dept_of st ED)
        + req_waiting_mature (dept_of st ED)))
    (ed_extra_staff t + call_extra_staff (pd_get decisions ED))
    (others_add (dep_arrivals_waiting t) (fun d => ext_waiting (dept_of st d)))
    (others_add (dep_requests_waiting t)
       (fun d => req_waiting_mature (dept_of st d) + req_waiting_new (dept_of st d)))
    (others_add (dep_extra_staff t) (fun d => call_extra_staff (pd_get decisions d)))
    (throughput_admitted t + admitted_total)
    (discharged_out t + discharged_out_total).

(** Steps 5 to 7 of [optimize_hour], reached when the status is optimal. *)
Definition commit (prob : LpProblem) (x : Var -> Q)
    (st : GameState) (discharged_out_by_dept : PerDept Z) : GameState * Outcome :=
  let value := rounded x in
  let blank := mkDecision 0 0 0 None None None in
  let '(st, decisions) :=
    fold_left (apply_one value) DEPARTMENTS (st, pd_init (fun _ => blank)) in
  let ed_div := value divert_ed in
  let ed := dept_of st ED in
  let st :=
    set_dept st ED
      (with_ed_ambulance_waiting ed (Z.max 0 (ed_ambulance_waiting ed - ed_div))) in
  let decisions := pd_set decisions ED (with_divert (pd_get decisions ED) ed_div) in
  let admitted_total :=
    sumZ (map (fun v => admit_external v + admit_requests v) (pd_values decisions)) in
  let discharged_out_total := sumZ (pd_values discharged_out_by_dept) in
  let st :=
    mkGame (hour st) (depts st)
      (update_totals st decisions ed_div admitted_total discharged_out_total) in
  let st := mkGame (hour st + 1) (depts st) (totals st) in
  (st,
   Returned decisions
     (mkInfo (financial_cost (totals st)) (quality_penalty (totals st))
        admitted_total discharged_out_total (objective_at prob x))).

(** [optimize_hour]: the contents of the state object after the call,
    and what the call raised or returned. *)
Definition optimize_hour (solve : Solver) (st : GameState) (hi : HourInput)
    (quality_weight flow_reward : Q) : GameState * Outcome :=
  let '(st, discharged_out_by_dept) := pre_solve st hi in
  let prob := build_problem st quality_weight flow_reward in
  let res := solve prob in
  match lp_status res with
  | LpStatusOptimal => commit prob (lp_values res) st discharged_out_by_dept
  | status => (st, Raised (hour st) status)
  end.

(** The program [optimize_hour] hands to the solver. *)
Definition hour_problem (st : GameState) (hi : HourInput)
    (quality_weight flow_reward : Q) : LpProblem :=
  build_problem (fst (pre_solve st hi)) quality_weight flow_reward.

(** ** The input form of [app.py] *)

(** The numbers typed into the form of one hour.  Every [number_input]
    of a count has [min_value=0]; the split of a department is asked for
    only when its ready-to-exit count is positive. *)
Record HourForm : Type := mkForm {
  f_arrivals : Dept -> Z;           (* "New arrivals", SD/CC/SU *)
  f_walkin : Z;
  f_ambulance : Z;
  f_staff_delta : Dept -> Z;
  f_ready : Dept -> Z;
  f_split : Dept -> string -> Z     (* by target key, "OUT" or a department *)
}.

Definition targets (d : Dept) : list string :=
  "OUT" :: map dept_key (List.filter (fun t => negb (dept_eqb t d)) DEPARTMENTS).

(** A validation message: department, split total, ready-to-exit count. *)
Record SplitError : Type := mkSplitError {
  err_dept : Dept; err_split_sum : Z; err_ready : Z
}.

Definition collect_one (f : HourForm)
    (acc : list SplitError * gmap (string * string) Z) (d : Dept)
    : list SplitError * gmap (string * string) Z :=
  let '(errors, dests) := acc in
  if 0 <? f_ready f d then
    let split_sum := sumZ (map (f_split f d) (targets d)) in
    let errors :=
      if negb (split_sum =? f_ready f d)
      then (errors ++ [mkSplitError d split_sum (f_ready f d)])%list
      else errors in
    (errors,
     fold_left (fun m t => <[(dept_key d, t) := f_split f d t]> m) (targets d) dests)
  else acc.

Definition key_map (f : Dept -> Z) (ds : list Dept) : gmap string Z :=
  fold_left (fun m d => <[dept_key d := f d]> m) ds ∅.

Definition _collect_hour_input (f : HourForm) : option HourInput * list SplitError :=
  let '(errors, dests) := fold_left (collect_one f) DEPARTMENTS ([], ∅) in
  match errors with
  | _ :: _ => (None, errors)
  | [] =>
      (Some
         (mkInput
            (key_map (fun d => if dept_eqb d ED then 0 else f_arrivals f d) DEPARTMENTS)
            (f_walkin f) (f_ambulance f)
            (key_map (f_staff_delta f) DEPARTMENTS)
            (key_map (f_ready f) DEPARTMENTS)
            dests),
       [])
  end.

(** ** The departure step as the specification words it *)

Definition actual_departures (st : GameState) (hi : HourInput) (d : Dept) : Z :=
  Z.min (_clamp_non_negative (get0 (ready_to_exit hi) (dept_key d)))
        (patients (dept_of st d)).

Inductive Target : Type := OUT | To (t : Dept).

Definition target_key (x : Target) : string :=
  match x with OUT => "OUT" | To t => dept_key t end.

(** Discharge first, then each other department in the fixed order. *)
Definition destination_order (d : Dept) : list Target :=
  OUT :: map To (List.filter (fun t => negb (dept_eqb t d)) DEPARTMENTS).

(** Each entry of the map is clipped to the departures still unallocated. *)
Fixpoint consume (hi : HourInput) (d : Dept) (order : list Target) (unallocated : Z)
    : list (Target * Z) * Z :=
  match order with
  | [] => ([], unallocated)
  | x :: rest =>
      let k :=
        Z.min (_clamp_non_negative (get0 (destinations hi) (dept_key d, target_key x)))
              unallocated in
      let '(alloc, rest_left) := consume hi d rest (unallocated - k) in
      ((x, k) :: alloc, rest_left)
  end.

Definition add_request (st : GameState) (t : Dept) (k : Z) : GameState :=
  set_dept st t
    (with_req_waiting_new (dept_of st t) (req_waiting_new (dept_of st t) + k)).

(** A discharge count is counted as discharged, any other count
    increments the target's [req_waiting_new]. *)
Definition credit (acc : GameState * Z) (e : Target * Z) : GameState * Z :=
  let '(st, out) := acc in
  match e with
  | (OUT, k) => (st, out + k)
  | (To t, k) => (add_request st t k, out)
  end.

Definition departure_step_spec (hi : HourInput)
    (acc : GameState * PerDept Z) (d : Dept) : GameState * PerDept Z :=
  let '(st, discharged) := acc in
  let a := actual_departures st hi d in
  let st := set_dept st d (with_patients (dept_of st d) (patients (dept_of st d) - a)) in
  let '(alloc, rest_left) := consume hi d (destination_order d) a in
  let '(st, out) := fold_left credit alloc (st, 0) in
  (st, pd_set discharged d (out + rest_left)).

Definition departures_spec (st : GameState) (hi : HourInput) : GameState * PerDept Z :=
  fold_left (departure_step_spec hi) DEPARTMENTS (st, pd_init (fun _ => 0)).

(** The transfer requests created and not yet mature, over all
    departments. *)
Definition total_new (st : GameState) : Z :=
  sumZ (map (fun x => req_waiting_new (dept_of st x)) DEPARTMENTS).

Arguments get0 : simpl never.

(** ** Statements and concrete data used below *)

(** The values of an integer point, as the solver reports them. *)
Definition as_floats (a : Var -> Z) : Var -> Q := fun v => inject_Z (a v).

Definition idle_point : Var -> Z := fun _ => 0.

(** A solver that answers every program with "infeasible". *)
Definition refusing_solver : Solver :=
  fun _ => mkResult LpStatusInfeasible (as_floats idle_point).

(** A solver that admits nobody: it answers with the all-zero point when
    that point satisfies the program, and with "infeasible" otherwise. *)
Definition idle_solver : Solver :=
  fun p =>
    if feasibleb p idle_point
    then mkResult LpStatusOptimal (as_floats idle_point)
    else mkResult LpStatusInfeasible (as_floats idle_point).

(** On an optimal status the rounded values satisfy the program. *)
Definition sound_solver (solve : Solver) : Prop :=
  forall p, lp_status (solve p) = LpStatusOptimal ->
            feasible p (rounded (lp_values (solve p))).

Definition no_input : HourInput := mkInput ∅ 0 0 ∅ ∅ ∅.

(** The initial state with one patient more than Emergency has rooms. *)
Definition overfull_state : GameState :=
  set_dept GameState_default ED
    (with_patients (dept_of GameState_default ED) (TOTAL_ROOMS ED + 1)).

Definition three_walkins : HourInput := mkInput ∅ 3 0 ∅ ∅ ∅.

(** C1 as the specification states it: a failed solve fails the call
    and leaves the state as it was given. *)
Definition atomic_on_failure : Prop :=
  forall (solve : Solver) st hi qw fr,
    lp_status (solve (hour_problem st hi qw fr)) <> LpStatusOptimal ->
    (exists h s, snd (optimize_hour solve st hi qw fr) = Raised h s) /\
    fst (optimize_hour solve st hi qw fr) = st.

(** The solver's values are within half a unit of an integer point that
    satisfies the program (its integrality and feasibility tolerances
    are far below that). *)
Definition within_tolerance (p : LpProblem) (x : Var -> Q) : Prop :=
  exists z : Var -> Z,
    feasible p z /\ forall v, (Qabs (x v - inject_Z (z v)) < 1 # 2)%Q.



(** The right-hand side of the constraint [req_admit_bound_<d>] of a
    built program: the number of transfer requests admissible to [d]. *)
Definition req_admit_bound (p : LpProblem) (d : Dept) : option Z :=
  match
    find (fun c => String.eqb (c_name c) ("req_admit_bound_" ++ dept_key d))
         (lp_constraints p)
  with
  | Some c => Some (eval idle_point (c_rhs c))
  | None => None
  end.

(** The transfer requests the departure step of a call adds to [d]'s
    [req_waiting_new]: the queue after the step minus the queue before. *)
Definition requests_created (st : GameState) (hi : HourInput) (d : Dept) : Z :=
  let aged := _roll_request_age st in
  req_waiting_new (dept_of (fst (_apply_departures_and_requests aged hi)) d)
  - req_waiting_new (dept_of aged d).

(** The transfer requests of [d] admitted by a call: its decision record
    when the call returned, none when it raised. *)
Definition requests_admitted (o : Outcome) (d : Dept) : Z :=
  match o with
  | Returned decisions _ => admit_requests (pd_get decisions d)
  | Raised _ _ => 0
  end.

(** Two Step-Down patients leave Emergency for Step-Down this hour. *)
Definition two_transfers : HourInput :=
  mkInput ∅ 0 0 ∅ {[ "ED" := 2 ]} {[ ("ED", "SD") := 2 ]}.

(** The decision records [optimize_hour] returns for rounded values [v]. *)
Definition solved_decisions (v : Var -> Z) : PerDept Decision :=
  pd_init (fun d =>
    if dept_eqb d ED
    then mkDecision (v admit_ed_walkin + v admit_ed_ambulance) (v (admit_req d))
           (v (extra_staff d))
           (Some (v admit_ed_walkin)) (Some (v admit_ed_ambulance)) (Some (v divert_ed))
    else mkDecision (v (admit_ext d)) (v (admit_req d)) (v (extra_staff d))
           None None None).

Definition var_eqb (v w : Var) : bool :=
  match v, w with
  | admit_ext a, admit_ext b => dept_eqb a b
  | admit_ed_walkin, admit_ed_walkin => true
  | admit_ed_ambulance, admit_ed_ambulance => true
  | admit_req a, admit_req b => dept_eqb a b
  | extra_staff a, extra_staff b => dept_eqb a b
  | divert_ed, divert_ed => true
  | _, _ => false
  end.

(** The point [a] with the value of [v] replaced by [x]. *)
Definition upd (a : Var -> Z) (v : Var) (x : Z) : Var -> Z :=
  fun w => if var_eqb w v then x else a w.

(** The objective under the default weights 1.0 and 300.0, in integers. *)
Definition objective_default (p : LpProblem) (a : Var -> Z) : Z :=
  eval a (lp_financial p) + eval a (lp_quality p) - 300 * eval a (lp_throughput p).

(** Scenario C of the specification, on the state the program is built
    from: Step-Down has ten arrivals waiting, its staff allows two more
    patients, its rooms allow more than that. *)
Definition staff_bound_scenario (s : GameState) : Prop :=
  ext_waiting (dept_of s SD) = 10 /\
  staff (dept_of s SD) - patients (dept_of s SD) = 2 /\
  2 < TOTAL_ROOMS SD - patients (dept_of s SD).

(** C5 as the specification states it. *)
Definition scenario_C_claim : Prop :=
  forall s a,
    staff_bound_scenario s -> optimal (build_problem s 1 300) a -> a (admit_ext SD) = 2.

(** Ten external arrivals for Step-Down in the first hour. *)
Definition ten_arrivals : HourInput := mkInput {[ "SD" := 10 ]} 0 0 ∅ ∅ ∅.

Definition scenario_C_state : GameState := fst (pre_solve GameState_default ten_arrivals).

Definition scenario_C_solution : Var -> Z :=
  fun v =>
    match v with
    | admit_ext SD => 8
    | extra_staff SD => 6
    | _ => 0
    end.

(** The constraints of the program that mention only Emergency's two
    arrival queues and the diversion. *)
Definition ed_ok (s : GameState) (a : Var -> Z) : Prop :=
  0 <= a admit_ed_walkin /\ 0 <= a admit_ed_ambulance /\ 0 <= a divert_ed /\
  a admit_ed_walkin <= ed_walkin_waiting (dept_of s ED) /\
  a admit_ed_ambulance <= ed_ambulance_waiting (dept_of s ED) /\
  a divert_ed <= ed_ambulance_waiting (dept_of s ED) /\
  a admit_ed_ambulance + a divert_ed <= ed_ambulance_waiting (dept_of s ED).

(** The lower bounds and constraints of the program that belong to
    department [d]. *)
Definition dept_ok (s : GameState) (a : Var -> Z) (d : Dept) : Prop :=
  0 <= a (admit_ext d) /\ 0 <= a (admit_req d) /\ 0 <= a (extra_staff d) /\
  (if dept_eqb d ED then a (admit_ext d) = 0
   else a (admit_ext d) <= ext_waiting (dept_of s d)) /\
  a (admit_req d) <= req_waiting_mature (dept_of s d) /\
  eval a (patients_end s d) <= TOTAL_ROOMS d /\
  eval a (patients_end s d) <= staff (dept_of s d) + a (extra_staff d).

(** The part of the default objective that belongs to Emergency. *)
Definition ed_cost (s : GameState) (a : Var -> Z) : Z :=
  5200 * a divert_ed
  + 170 * (ed_walkin_waiting (dept_of s ED) - a admit_ed_walkin
           + (ed_ambulance_waiting (dept_of s ED) - a admit_ed_ambulance - a divert_ed)
           + (req_waiting_mature (dept_of s ED) - a (admit_req ED)
              + req_waiting_new (dept_of s ED)))
  + 45 * a (extra_staff ED)
  - 300 * (a admit_ed_walkin + a admit_ed_ambulance + a (admit_req ED)).

(** The part of the default objective that belongs to another department. *)
Definition other_cost (s : GameState) (a : Var -> Z) (d : Dept) : Z :=
  3770 * (ext_waiting (dept_of s d) - a (admit_ext d))
  + 20 * (req_waiting_mature (dept_of s d) - a (admit_req d)
          + req_waiting_new (dept_of s d))
  + 45 * a (extra_staff d)
  - 300 * (a (admit_ext d) + a (admit_req d)).

(** The total of department [d]'s destination split in an hour's input. *)
Definition split_total (hi : HourInput) (d : Dept) : Z :=
  sumZ (map (fun k => get0 (destinations hi) (dept_key d, k)) (targets d)).

Definition split_mismatch (hi : HourInput) : Prop :=
  exists d, split_total hi d <> get0 (ready_to_exit hi) (dept_key d).

(** C6 as the specification states it: the core rejects an input whose
    split does not add up, and leaves the state alone. *)
Definition core_rejects_mismatch : Prop :=
  forall (solve : Solver) st hi qw fr,
    split_mismatch hi ->
    (exists h s, snd (optimize_hour solve st hi qw fr) = Raised h s) /\
    fst (optimize_hour solve st hi qw fr) = st.

(** Two patients ready to leave Emergency, five declared discharged. *)
Definition mismatched_input : HourInput :=
  mkInput ∅ 0 0 ∅ {[ "ED" := 2 ]} {[ ("ED", "OUT") := 5 ]}.

(** The form check of [_collect_hour_input] for one department. *)
Definition form_mismatchb (f : HourForm) (d : Dept) : bool :=
  (0 <? f_ready f d) && negb (sumZ (map (f_split f d) (targets d)) =? f_ready f d).

(** The same figures typed into the form. *)
Definition mismatched_form : HourForm :=
  mkForm (fun _ => 0) 0 0 (fun _ => 0)
    (fun d => if dept_eqb d ED then 2 else 0)
    (fun d k => if dept_eqb d ED && String.eqb k "OUT" then 5 else 0).

(** One call of [optimize_hour]: the hour's input and the two weights. *)
Record HourCall : Type := mkCall {
  call_input : HourInput;
  call_quality_weight : Q;
  call_flow_reward : Q
}.

(** A sequence of calls on one state object, every one of which
    returns: the state after the last call. *)
Fixpoint play (solve : Solver) (st : GameState) (calls : list HourCall)
    : option GameState :=
  match calls with
  | [] => Some st
  | c :: rest =>
      match optimize_hour solve st (call_input c)
              (call_quality_weight c) (call_flow_reward c) with
      | (st', Returned _ _) => play solve st' rest
      | (_, Raised _ _) => None
      end
  end.

Definition others_le (o o' : Others) : Prop :=
  o_SD o <= o_SD o' /\ o_CC o <= o_CC o' /\ o_SU o <= o_SU o'.

(** Every counter that enters a cost, and the admitted count, is at
    least what it was. *)
Definition totals_le (t t' : Totals) : Prop :=
  ed_diversions t <= ed_diversions t' /\
  ed_waiting t <= ed_waiting t' /\
  ed_extra_staff t <= ed_extra_staff t' /\
  others_le (dep_arrivals_waiting t) (dep_arrivals_waiting t') /\
  others_le (dep_requests_waiting t) (dep_requests_waiting t') /\
  others_le (dep_extra_staff t) (dep_extra_staff t') /\
  throughput_admitted t <= throughput_admitted t'.

Definition two_hours : list HourCall :=
  [mkCall three_walkins 1 300; mkCall two_transfers 1 300].

(** Two ambulances and one walk-in arrive at Emergency. *)
Definition two_ambulances : HourInput := mkInput ∅ 1 2 ∅ ∅ ∅.

(** A solver that admits one ambulance arrival and diverts the other. *)
Definition diverting_solver : Solver :=
  fun _ =>
    mkResult LpStatusOptimal
      (fun v =>
         match v with
         | admit_ed_ambulance => 1%Q
         | divert_ed => 1%Q
         | _ => 0%Q
         end).

(** Two inputs that every [.get(key, 0)] and attribute read of
    [optimize_hour] sees alike. *)
Definition same_reads (hi hi' : HourInput) : Prop :=
  (forall k, get0 (external_arrivals hi) k = get0 (external_arrivals hi') k) /\
  ed_walkin_arrivals hi = ed_walkin_arrivals hi' /\
  ed_ambulance_arrivals hi = ed_ambulance_arrivals hi' /\
  (forall k, get0 (staff_delta hi) k = get0 (staff_delta hi') k) /\
  (forall k, get0 (ready_to_exit hi) k = get0 (ready_to_exit hi') k) /\
  (forall k, get0 (destinations hi) k = get0 (destinations hi') k).

Definition with_external_arrivals (hi : HourInput) (m : gmap string Z) : HourInput :=
  mkInput m (ed_walkin_arrivals hi) (ed_ambulance_arrivals hi)
    (staff_delta hi) (ready_to_exit hi) (destinations hi).

Definition with_staff_delta (hi : HourInput) (m : gmap string Z) : HourInput :=
  mkInput (external_arrivals hi) (ed_walkin_arrivals hi) (ed_ambulance_arrivals hi)
    m (ready_to_exit hi) (destinations hi).

Definition with_ready_to_exit (hi : HourInput) (m : gmap string Z) : HourInput :=
  mkInput (external_arrivals hi) (ed_walkin_arrivals hi) (ed_ambulance_arrivals hi)
    (staff_delta hi) m (destinations hi).

Definition with_destinations (hi : HourInput) (m : gmap (string * string) Z)
    : HourInput :=
  mkInput (external_arrivals hi) (ed_walkin_arrivals hi) (ed_ambulance_arrivals hi)
    (staff_delta hi) (ready_to_exit hi) m.

(** A state whose queues and staff counts are not negative. *)
Definition queues_nonneg (st : GameState) : Prop :=
  forall d,
    0 <= staff (dept_of st d) /\
    0 <= ext_waiting (dept_of st d) /\
    0 <= ed_walkin_waiting (dept_of st d) /\
    0 <= ed_ambulance_waiting (dept_of st d) /\
    0 <= req_waiting_mature (dept_of st d) /\
    0 <= req_waiting_new (dept_of st d).

Definition total_patients (st : GameState) : Z :=
  sumZ (map (fun d => patients (dept_of st d)) DEPARTMENTS).

(** The admitted count [optimize_hour] reports for rounded values [v]. *)
Definition admitted_total_of (v : Var -> Z) : Z :=
  sumZ (map (fun r => admit_external r + admit_requests r)
            (pd_values (solved_decisions v))).

(** The point that admits nobody and calls the staff the present
    patients lack. *)
Definition staffing_point (s : GameState) : Var -> Z :=
  fun v =>
    match v with
    | extra_staff d => Z.max 0 (patients (dept_of s d) - staff (dept_of s d))
    | _ => 0
    end.

(** A state in which every department has between zero patients and
    its rooms full, and no queue or staff count is negative. *)
Definition well_formed (st : GameState) : Prop :=
  (forall d, 0 <= patients (dept_of st d) <= TOTAL_ROOMS d) /\ queues_nonneg st.

(** A form as the widgets allow it: every count field has
    [min_value=0]. *)
Definition form_in_range (f : HourForm) : Prop :=
  forall d, 0 <= f_ready f d /\ forall k, In k (targets d) -> 0 <= f_split f d k.

(** One Emergency patient discharged and one sent to Step-Down. *)
Definition two_exits_form : HourForm :=
  mkForm (fun _ => 0) 0 0 (fun _ => 0)
    (fun d => if dept_eqb d ED then 2 else 0)
    (fun d k =>
       if dept_eqb d ED && (String.eqb k "OUT" || String.eqb k "SD") then 1 else 0).

(** A solver that answers every program with "unbounded". *)
Definition unbounded_solver : Solver :=
  fun _ => mkResult LpStatusUnbounded (as_floats idle_point).

(** C3 as the specification states it: in the call that creates them
    the requests are outside the admission bound, and the call that
    counts them in its bound is the call for hour h+1. *)
Definition matures_at_hour_plus_one : Prop :=
  forall (solve : Solver) st hi qw fr d hi2 qw2 fr2,
    0 < requests_created st hi d ->
    let s1 := fst (optimize_hour solve st hi qw fr) in
    req_admit_bound (hour_problem st hi qw fr) d
      = Some (req_waiting_mature (dept_of st d) + req_waiting_new (dept_of st d)) /\
    (req_admit_bound (hour_problem s1 hi2 qw2 fr2) d
       = Some (req_waiting_mature (dept_of s1 d) + requests_created st hi d) ->
     lp_hour (hour_problem s1 hi2 qw2 fr2) = hour st + 1).

(** The point that admits two transfer requests to Step-Down. *)
Definition admit_two_requests : Var -> Z :=
  fun v => match v with admit_req SD => 2 | _ => 0 end.

(** * Properties *)

(** ** Records and the four-key dictionary *)

Lemma dept_eqb_eq (a b : Dept) : dept_eqb a b = true <-> a = b.
Proof. destruct a, b; simpl; split; congruence. Qed.

Lemma dept_of_set_dept_same st d x : dept_of (set_dept st d x) d = x.
Proof. destruct d; reflexivity. Qed.

Lemma dept_of_set_dept_other st d d' x :
  d <> d' -> dept_of (set_dept st d x) d' = dept_of st d'.
Proof. destruct d, d'; intros Hne; try reflexivity; congruence. Qed.

Lemma set_dept_id st d : set_dept st d (dept_of st d) = st.
Proof. destruct st as [h [a b c e] t], d; reflexivity. Qed.

Lemma with_req_waiting_new_id (x : DepartmentState) :
  with_req_waiting_new x (req_waiting_new x) = x.
Proof. destruct x; reflexivity. Qed.

Lemma add_request_0 st t : add_request st t 0 = st.
Proof.
  unfold add_request. rewrite Z.add_0_r, with_req_waiting_new_id.
  apply set_dept_id.
Qed.

(** ** Departures: the guard on [remaining] never changes the result *)

Lemma route_to_unguarded hi d st r t :
  0 <= r ->
  route_to hi d (st, r) t =
    if dept_eqb t d then (st, r)
    else
      let k :=
        Z.min (_clamp_non_negative (get0 (destinations hi) (dept_key d, dept_key t))) r in
      (add_request st t k, r - k).
Proof.
  intros Hr. unfold route_to.
  destruct (dept_eqb t d); simpl; [reflexivity|].
  destruct (Z.leb_spec r 0) as [Hle|Hgt]; [|reflexivity].
  assert (r = 0) by lia. subst r.
  unfold _clamp_non_negative.
  rewrite Z.min_r by lia. now rewrite add_request_0, Z.sub_0_r.
Qed.

Lemma consume_left hi d order u :
  0 <= u -> 0 <= snd (consume hi d order u) <= u.
Proof.
  revert u. induction order as [|x rest IH]; intros u Hu; simpl; [lia|].
  set (k := Z.min _ u).
  assert (0 <= k <= u) by (unfold k, _clamp_non_negative; lia).
  specialize (IH (u - k) ltac:(lia)).
  destruct (consume hi d rest (u - k)) as [alloc rest_left]. simpl in *. lia.
Qed.


Lemma pd_set_set {A} (m : PerDept A) d x y : pd_set (pd_set m d x) d y = pd_set m d y.
Proof. destruct d; reflexivity. Qed.

Lemma pd_get_set_same {A} (m : PerDept A) d x : pd_get (pd_set m d x) d = x.
Proof. destruct d; reflexivity. Qed.

Lemma spill_as_out (dis : PerDept Z) d out r :
  0 <= r ->
  (if 0 <? r then pd_set (pd_set dis d out) d (pd_get (pd_set dis d out) d + r)
   else pd_set dis d out) = pd_set dis d (out + r).
Proof.
  intros Hr. destruct (Z.ltb_spec 0 r).
  - now rewrite pd_get_set_same, pd_set_set.
  - replace r with 0 by lia. now rewrite Z.add_0_r.
Qed.

Lemma depart_from_spec hi acc d :
  depart_from hi acc d = departure_step_spec hi acc d.
Proof.
  destruct acc as [st dis].
  unfold depart_from, departure_step_spec, actual_departures.
  set (a := Z.min _ (patients (dept_of st d))).
  set (st1 := set_dept st d _).
  destruct d; cbn [DEPARTMENTS fold_left destination_order List.filter map negb dept_eqb
                   consume target_key dept_key];
    unfold _clamp_non_negative;
    repeat (rewrite route_to_unguarded by lia; cbn [dept_eqb]; cbv zeta);
    cbn [fold_left credit]; rewrite spill_as_out by lia;
    repeat f_equal; lia.
Qed.


(** What one turn of the departure loop does to each field. *)
Lemma depart_from_fields hi st dis d :
  let r := depart_from hi (st, dis) d in
  let a := actual_departures st hi d in
  hour (fst r) = hour st /\ totals (fst r) = totals st /\
  (forall x,
     staff (dept_of (fst r) x) = staff (dept_of st x) /\
     ext_waiting (dept_of (fst r) x) = ext_waiting (dept_of st x) /\
     ed_walkin_waiting (dept_of (fst r) x) = ed_walkin_waiting (dept_of st x) /\
     ed_ambulance_waiting (dept_of (fst r) x) = ed_ambulance_waiting (dept_of st x) /\
     req_waiting_mature (dept_of (fst r) x) = req_waiting_mature (dept_of st x) /\
     req_waiting_new (dept_of st x) <= req_waiting_new (dept_of (fst r) x) /\
     patients (dept_of (fst r) x) =
       (if dept_eqb x d then patients (dept_of st x) - a else patients (dept_of st x)) /\
     (dept_eqb x d = false -> pd_get (snd r) x = pd_get dis x)) /\
  req_waiting_new (dept_of (fst r) d) = req_waiting_new (dept_of st d) /\
  pd_get (snd r) d + (total_new (fst r) - total_new st) = a.
Proof.
  rewrite depart_from_spec.
  unfold departure_step_spec, actual_departures, total_new, sumZ, _clamp_non_negative.
  destruct d;
    cbn [DEPARTMENTS fold_left destination_order List.filter map negb dept_eqb
         consume target_key dept_key credit fst snd];
    (refine (conj _ (conj _ (conj _ (conj _ _))));
       [ reflexivity | reflexivity
       | intros x; destruct x; cbn; unfold _clamp_non_negative;
         repeat split; try lia; congruence
       | cbn; unfold _clamp_non_negative; lia
       | cbn; unfold _clamp_non_negative; lia ]).
Qed.

Ltac step_fields hi s dis d r Hh Ht Hx Hn Hc :=
  pose proof (depart_from_fields hi s dis d) as Hx;
  destruct (depart_from hi (s, dis) d) as r;
  cbn [fst snd] in Hx;
  destruct Hx as (Hh & Ht & Hx & Hn & Hc).

Ltac at_all_depts H :=
  pose proof (H ED); pose proof (H SD); pose proof (H CC); pose proof (H SU);
  clear H.

(** What the whole departure loop does to each field. *)
Lemma departures_fields st hi :
  let r := _apply_departures_and_requests st hi in
  hour (fst r) = hour st /\ totals (fst r) = totals st /\
  (forall x,
     staff (dept_of (fst r) x) = staff (dept_of st x) /\
     ext_waiting (dept_of (fst r) x) = ext_waiting (dept_of st x) /\
     ed_walkin_waiting (dept_of (fst r) x) = ed_walkin_waiting (dept_of st x) /\
     ed_ambulance_waiting (dept_of (fst r) x) = ed_ambulance_waiting (dept_of st x) /\
     req_waiting_mature (dept_of (fst r) x) = req_waiting_mature (dept_of st x) /\
     req_waiting_new (dept_of st x) <= req_waiting_new (dept_of (fst r) x) /\
     patients (dept_of (fst r) x) =
       patients (dept_of st x) - actual_departures st hi x) /\
  sumZ (pd_values (snd r)) + (total_new (fst r) - total_new st) =
    sumZ (map (actual_departures st hi) DEPARTMENTS).
Proof.
  unfold _apply_departures_and_requests. cbn [DEPARTMENTS fold_left].
  step_fields hi st (pd_init (fun _ : Dept => 0)) ED ipattern:([s1 d1]) Hh1 Ht1 H1 Hn1 Hc1.
  step_fields hi s1 d1 SD ipattern:([s2 d2]) Hh2 Ht2 H2 Hn2 Hc2.
  step_fields hi s2 d2 CC ipattern:([s3 d3]) Hh3 Ht3 H3 Hn3 Hc3.
  step_fields hi s3 d3 SU ipattern:([s4 d4]) Hh4 Ht4 H4 Hn4 Hc4.
  cbn [fst snd].
  at_all_depts H1. at_all_depts H2. at_all_depts H3. at_all_depts H4.
  unfold actual_departures, total_new, sumZ, pd_values in *.
  cbn [dept_eqb map fold_left DEPARTMENTS pd_get] in *.
  refine (conj _ (conj _ (conj _ _))); [congruence | congruence | | lia].
  intros x; destruct x; repeat split; lia.
Qed.

(** ** Request aging, arrivals and staffing shock *)

Lemma roll_fields st :
  hour (_roll_request_age st) = hour st /\
  totals (_roll_request_age st) = totals st /\
  forall x,
    dept_of (_roll_request_age st) x =
      with_req_waiting_new
        (with_req_waiting_mature (dept_of st x)
           (req_waiting_mature (dept_of st x) + req_waiting_new (dept_of st x)))
        0.
Proof.
  repeat split. intros x; destruct x; reflexivity.
Qed.

Lemma arrivals_fields hi st :
  hour (apply_arrivals_and_staff hi st) = hour st /\
  totals (apply_arrivals_and_staff hi st) = totals st /\
  forall x, dept_of (apply_arrivals_and_staff hi st) x =
    let dept := dept_of st x in
    mkDept (patients dept)
      (_clamp_non_negative (staff dept + get0 (staff_delta hi) (dept_key x)))
      (if dept_eqb x ED then ext_waiting dept
       else ext_waiting dept
            + _clamp_non_negative (get0 (external_arrivals hi) (dept_key x)))
      (if dept_eqb x ED
       then ed_walkin_waiting dept + _clamp_non_negative (ed_walkin_arrivals hi)
       else ed_walkin_waiting dept)
      (if dept_eqb x ED
       then ed_ambulance_waiting dept + _clamp_non_negative (ed_ambulance_arrivals hi)
       else ed_ambulance_waiting dept)
      (req_waiting_mature dept) (req_waiting_new dept).
Proof.
  repeat split. intros x; destruct x; reflexivity.
Qed.

(** The state the program is built from, field by field. *)
Lemma pre_solve_fields st hi :
  let s := fst (pre_solve st hi) in
  hour s = hour st /\ totals s = totals st /\
  forall x,
    patients (dept_of s x) =
      patients (dept_of st x)
      - Z.min (_clamp_non_negative (get0 (ready_to_exit hi) (dept_key x)))
              (patients (dept_of st x)) /\
    staff (dept_of s x) =
      _clamp_non_negative (staff (dept_of st x) + get0 (staff_delta hi) (dept_key x)) /\
    ext_waiting (dept_of s x) =
      (if dept_eqb x ED then ext_waiting (dept_of st x)
       else ext_waiting (dept_of st x)
            + _clamp_non_negative (get0 (external_arrivals hi) (dept_key x))) /\
    ed_walkin_waiting (dept_of s x) =
      (if dept_eqb x ED
       then ed_walkin_waiting (dept_of st x) + _clamp_non_negative (ed_walkin_arrivals hi)
       else ed_walkin_waiting (dept_of st x)) /\
    ed_ambulance_waiting (dept_of s x) =
      (if dept_eqb x ED
       then ed_ambulance_waiting (dept_of st x)
            + _clamp_non_negative (ed_ambulance_arrivals hi)
       else ed_ambulance_waiting (dept_of st x)) /\
    req_waiting_mature (dept_of s x) =
      req_waiting_mature (dept_of st x) + req_waiting_new (dept_of st x) /\
    0 <= req_waiting_new (dept_of s x).
Proof.
  unfold pre_solve.
  destruct (roll_fields st) as (Hh0 & Ht0 & H0).
  pose proof (departures_fields (_roll_request_age st) hi) as H1.
  destruct (_apply_departures_and_requests (_roll_request_age st) hi) as [s1 dis].
  cbn [fst snd] in *. destruct H1 as (Hh1 & Ht1 & H1 & _).
  destruct (arrivals_fields hi s1) as (Hh2 & Ht2 & H2).
  refine (conj _ (conj _ _)); [congruence | congruence |].
  intros x. rewrite H2. cbn [patients staff ext_waiting ed_walkin_waiting
    ed_ambulance_waiting req_waiting_mature req_waiting_new].
  specialize (H1 x). specialize (H0 x). unfold actual_departures in H1.
  rewrite H0 in H1.
  cbn [with_req_waiting_new with_req_waiting_mature patients staff ext_waiting
       ed_walkin_waiting ed_ambulance_waiting req_waiting_mature req_waiting_new] in H1.
  destruct H1 as (-> & -> & -> & -> & -> & Hn & ->).
  repeat split; try reflexivity; lia.
Qed.

(** ** The constraints of the program, spelled out *)

Lemma feasible_build s qw fr (a : Var -> Z) :
  feasible (build_problem s qw fr) a <->
  (forall v, 0 <= a v) /\
  a (admit_ext ED) = 0 /\
  (forall d, d <> ED -> a (admit_ext d) <= ext_waiting (dept_of s d)) /\
  (forall d, a (admit_req d) <= req_waiting_mature (dept_of s d)) /\
  a admit_ed_walkin <= ed_walkin_waiting (dept_of s ED) /\
  a admit_ed_ambulance <= ed_ambulance_waiting (dept_of s ED) /\
  a divert_ed <= ed_ambulance_waiting (dept_of s ED) /\
  a admit_ed_ambulance + a divert_ed <= ed_ambulance_waiting (dept_of s ED) /\
  (forall d, eval a (patients_end s d) <= TOTAL_ROOMS d) /\
  (forall d, eval a (patients_end s d) <= staff (dept_of s d) + a (extra_staff d)).
Proof.
  unfold feasible, feasibleb, build_problem.
  cbn [lp_constraints all_vars DEPARTMENTS map app flat_map queue_bounds ed_bounds
       capacity_constraints forallb holdsb c_sense c_lhs c_rhs eval dept_eqb negb].
  rewrite !andb_true_iff, !Z.leb_le, !Z.eqb_eq.
  split.
  - intros H. decompose [and] H. clear H.
    repeat split; try assumption.
    + intros v; destruct v as [d| | |d|d|]; try destruct d; assumption.
    + intros d Hd; destruct d; try assumption; congruence.
    + intros d; destruct d; assumption.
    + intros d; destruct d; assumption.
    + intros d; destruct d; assumption.
  - intros (Hv & He & Hx & Hr & Hw & Ha & Hd & Hs & Hc & Hf).
    pose proof (Hx SD ltac:(discriminate)). pose proof (Hx CC ltac:(discriminate)).
    pose proof (Hx SU ltac:(discriminate)).
    pose proof (Hc ED). pose proof (Hc SD). pose proof (Hc CC). pose proof (Hc SU).
    pose proof (Hf ED). pose proof (Hf SD). pose proof (Hf CC). pose proof (Hf SU).
    repeat split; try apply Hv; try apply Hr; assumption.
Qed.

(** ** Decision application, field by field *)

Lemma commit_fields prob x s dis :
  let r := fst (commit prob x s dis) in
  let v := rounded x in
  hour r = hour s + 1 /\
  (forall d, dept_of r d =
     let dept := dept_of s d in
     mkDept
       (if dept_eqb d ED
        then patients dept + v admit_ed_walkin + v admit_ed_ambulance + v (admit_req d)
        else patients dept + v (admit_ext d) + v (admit_req d))
       (staff dept + v (extra_staff d))
       (if dept_eqb d ED then ext_waiting dept else ext_waiting dept - v (admit_ext d))
       (if dept_eqb d ED then ed_walkin_waiting dept - v admit_ed_walkin
        else ed_walkin_waiting dept)
       (if dept_eqb d ED
        then Z.max 0 (ed_ambulance_waiting dept - v admit_ed_ambulance - v divert_ed)
        else ed_ambulance_waiting dept)
       (req_waiting_mature dept - v (admit_req d))
       (req_waiting_new dept)) /\
  totals r =
    mkTotals
      (ed_diversions (totals s) + v divert_ed)
      (ed_waiting (totals s)
       + (ed_walkin_waiting (dept_of r ED) + ed_ambulance_waiting (dept_of r ED)
          + req_waiting_mature (dept_of r ED)))
      (ed_extra_staff (totals s) + v (extra_staff ED))
      (others_add (dep_arrivals_waiting (totals s)) (fun d => ext_waiting (dept_of r d)))
      (others_add (dep_requests_waiting (totals s))
         (fun d => req_waiting_mature (dept_of r d) + req_waiting_new (dept_of r d)))
      (others_add (dep_extra_staff (totals s)) (fun d => v (extra_staff d)))
      (throughput_admitted (totals s)
       + (0 + (v admit_ed_walkin + v admit_ed_ambulance + v (admit_req ED))
          + (v (admit_ext SD) + v (admit_req SD))
          + (v (admit_ext CC) + v (admit_req CC))
          + (v (admit_ext SU) + v (admit_req SU))))
      (discharged_out (totals s) + sumZ (pd_values dis)).
Proof.
  unfold commit. cbv zeta. generalize (rounded x). intros v.
  destruct s as [h [e sd c u] t].
  cbn [DEPARTMENTS fold_left apply_one dept_eqb dept_of set_dept pd_get pd_set pd_init
       depts hour totals at_ED at_SD at_CC at_SU fst snd].
  refine (conj _ (conj _ _)); [reflexivity | intros d; destruct d; reflexivity | reflexivity].
Qed.

(** ** The two exits of [optimize_hour] *)

Lemma optimize_hour_failed solve st hi qw fr :
  lp_status (solve (hour_problem st hi qw fr)) <> LpStatusOptimal ->
  optimize_hour solve st hi qw fr =
    (fst (pre_solve st hi),
     Raised (hour st) (lp_status (solve (hour_problem st hi qw fr)))).
Proof.
  intros Hs. unfold optimize_hour, hour_problem in *.
  pose proof (pre_solve_fields st hi) as (Hh & _).
  destruct (pre_solve st hi) as [s dis]. cbn [fst snd] in *.
  rewrite Hh.
  destruct (lp_status (solve (build_problem s qw fr))); congruence.
Qed.

Lemma optimize_hour_optimal solve st hi qw fr :
  lp_status (solve (hour_problem st hi qw fr)) = LpStatusOptimal ->
  optimize_hour solve st hi qw fr =
    commit (hour_problem st hi qw fr) (lp_values (solve (hour_problem st hi qw fr)))
      (fst (pre_solve st hi)) (snd (pre_solve st hi)).
Proof.
  intros Hs. unfold optimize_hour, hour_problem in *.
  destruct (pre_solve st hi) as [s dis]. cbn [fst snd] in *.
  now rewrite Hs.
Qed.

(** ** C1: a failed solve *)

(** C1, as amended.  When the solver returns a non-optimal status,
    [optimize_hour] raises the error carrying the hour and that status,
    and the state object is left as steps 1 to 3 made it: request aging,
    departures and routing, arrivals and the staffing shock are applied;
    the hour counter and the totals are the ones it had before. *)
Theorem failed_solve_keeps_transition solve st hi qw fr :
  lp_status (solve (hour_problem st hi qw fr)) <> LpStatusOptimal ->
  optimize_hour solve st hi qw fr =
    (fst (pre_solve st hi),
     Raised (hour st) (lp_status (solve (hour_problem st hi qw fr)))) /\
  hour (fst (optimize_hour solve st hi qw fr)) = hour st /\
  totals (fst (optimize_hour solve st hi qw fr)) = totals st.
Proof.
  intros Hs. rewrite (optimize_hour_failed _ _ _ _ _ Hs). cbn [fst].
  destruct (pre_solve_fields st hi) as (Hh & Ht & _). auto.
Qed.

Lemma failed_solve_keeps_transition_witness :
  optimize_hour refusing_solver overfull_state three_walkins 1 300 =
    (fst (pre_solve overfull_state three_walkins), Raised 1 LpStatusInfeasible) /\
  hour (fst (optimize_hour refusing_solver overfull_state three_walkins 1 300)) = 1 /\
  totals (fst (optimize_hour refusing_solver overfull_state three_walkins 1 300))
    = Totals_default.
Proof.
  apply (failed_solve_keeps_transition refusing_solver overfull_state three_walkins 1 300).
  simpl. discriminate.
Defined.

(** C1, counterexample.  Emergency holds 26 patients in 25 rooms, so the
    program of the hour has no feasible point and the solve fails; the
    three walk-ins of the hour's input are in the queue all the same. *)
Lemma failed_solve_mutates_state :
  (forall a, ~ feasible (hour_problem overfull_state three_walkins 1 300) a) /\
  snd (optimize_hour refusing_solver overfull_state three_walkins 1 300)
    = Raised 1 LpStatusInfeasible /\
  ed_walkin_waiting (dept_of overfull_state ED) = 0 /\
  ed_walkin_waiting
    (dept_of (fst (optimize_hour refusing_solver overfull_state three_walkins 1 300)) ED)
    = 3 /\
  ~ atomic_on_failure.
Proof.
  split; [|split; [|split; [|split]]]; try reflexivity.
  - intros a Ha. apply feasible_build in Ha.
    destruct Ha as (Hv & _ & _ & _ & _ & _ & _ & _ & Hc & _).
    specialize (Hc ED). cbn [patients_end eval dept_eqb TOTAL_ROOMS] in Hc.
    set (pt := patients _) in Hc.
    assert (Hpt : pt = 26) by (vm_compute; reflexivity).
    pose proof (Hv admit_ed_walkin). pose proof (Hv admit_ed_ambulance).
    pose proof (Hv (admit_req ED)). lia.
  - intros H.
    destruct (H refusing_solver overfull_state three_walkins 1%Q 300%Q) as [_ Heq];
      [simpl; discriminate|].
    apply (f_equal (fun s => ed_walkin_waiting (dept_of s ED))) in Heq.
    vm_compute in Heq. discriminate.
Qed.

(** ** Rounding the solver's values *)

Lemma py_round_near (x : Q) (z : Z) :
  (Qabs (x - inject_Z z) < 1 # 2)%Q -> py_round x = z.
Proof.
  intros Hnear. apply Qabs_Qlt_condition in Hnear. destruct Hnear as [Hlo Hhi].
  unfold py_round.
  pose proof (Qfloor_le x) as Hfl. pose proof (Qlt_floor x) as Hfu.
  set (f := Qfloor x) in *. clearbody f.
  rewrite inject_Z_plus in Hfu. change (inject_Z 1) with 1%Q in Hfu.
  assert (Hz1 : (f <= z)%Z).
  { apply Z.lt_succ_r. rewrite Zlt_Qlt. unfold Z.succ. rewrite inject_Z_plus.
    change (inject_Z 1) with 1%Q. lra. }
  assert (Hz2 : (z <= f + 1)%Z).
  { apply Z.lt_succ_r. rewrite Zlt_Qlt. unfold Z.succ.
    rewrite !inject_Z_plus. change (inject_Z 1) with 1%Q. lra. }
  assert (Hcase : f = z \/ f = (z - 1)%Z) by lia.
  destruct Hcase as [Hf | Hf].
  - rewrite Hf in *.
    destruct (Qcompare_spec (x - inject_Z z) (1 # 2)) as [He | Hl | Hg];
      [lra | reflexivity | lra].
  - assert (Hfz : (inject_Z f == inject_Z z - 1)%Q).
    { rewrite Hf. unfold Z.sub. rewrite inject_Z_plus.
      reflexivity. }
    destruct (Qcompare_spec (x - inject_Z f) (1 # 2)) as [He | Hl | Hg];
      [lra | lra | lia].
Qed.

Lemma eval_ext (a b : Var -> Z) e : (forall v, a v = b v) -> eval a e = eval b e.
Proof.
  intros Hab. induction e; simpl; congruence.
Qed.

Lemma forallb_pointwise {A} (f g : A -> bool) (l : list A) :
  (forall x, f x = g x) -> forallb f l = forallb g l.
Proof.
  intros Hfg. induction l as [|x l IH]; simpl; [reflexivity|].
  now rewrite Hfg, IH.
Qed.

Lemma feasibleb_ext p (a b : Var -> Z) :
  (forall v, a v = b v) -> feasibleb p a = feasibleb p b.
Proof.
  intros Hab. unfold feasibleb. f_equal.
  - apply forallb_pointwise. intros v. now rewrite Hab.
  - apply forallb_pointwise. intros c. unfold holdsb.
    now rewrite (eval_ext a b (c_lhs c) Hab), (eval_ext a b (c_rhs c) Hab).
Qed.

(** Rounding recovers the integer point the solver found. *)
Lemma rounded_within_tolerance p x :
  within_tolerance p x -> feasible p (rounded x).
Proof.
  intros (z & Hz & Hnear). unfold feasible in *.
  rewrite <- Hz. apply feasibleb_ext. intros v. unfold rounded.
  now apply py_round_near.
Qed.

(** ** C2: capacity and staffing after a successful call *)



Lemma LpStatus_optimal_dec (s : LpStatus) :
  {s = LpStatusOptimal} + {s <> LpStatusOptimal}.
Proof. destruct s; (left; reflexivity) || (right; discriminate). Qed.

Lemma commit_decisions prob x s dis :
  exists info, snd (commit prob x s dis) = Returned (solved_decisions (rounded x)) info.
Proof.
  unfold commit. cbv zeta. generalize (rounded x). intros v.
  destruct s as [h [e sd c u] t].
  cbn [DEPARTMENTS fold_left apply_one dept_eqb dept_of set_dept pd_get pd_set pd_init
       depts hour totals at_ED at_SD at_CC at_SU fst snd].
  eexists. reflexivity.
Qed.

(** ** C3: one hour of aging *)

Lemma req_admit_bound_build s qw fr d :
  req_admit_bound (build_problem s qw fr) d = Some (req_waiting_mature (dept_of s d)).
Proof. destruct d; reflexivity. Qed.

Lemma pre_solve_new st hi d :
  req_waiting_new (dept_of (fst (pre_solve st hi)) d) = requests_created st hi d.
Proof.
  unfold pre_solve, requests_created.
  destruct (roll_fields st) as (_ & _ & H0). rewrite (H0 d).
  destruct (_apply_departures_and_requests (_roll_request_age st) hi) as [s1 dis].
  cbn [fst].
  destruct (arrivals_fields hi s1) as (_ & _ & H2). rewrite (H2 d).
  cbn [req_waiting_new with_req_waiting_new]. lia.
Qed.

(** C3, as amended.  In the call that creates them, the transfer
    requests routed to [d] are not admissible: the program's bound on
    [admit_req d] is the old mature queue plus the old new queue,
    whatever the hour's routing is, and [req_waiting_mature] ends the
    call as that bound minus the requests admitted.  They end the call
    in [req_waiting_new], and the next call on the state counts them in
    its bound.  That next call is the call for hour h+1 when the creating
    call returned; when the creating call raised, the hour counter is not
    advanced and the next call is again a call for hour h. *)
Theorem requests_mature_in_the_next_call solve st hi qw fr d :
  let r1 := optimize_hour solve st hi qw fr in
  let s1 := fst r1 in
  let eligible :=
    req_waiting_mature (dept_of st d) + req_waiting_new (dept_of st d) in
  req_admit_bound (hour_problem st hi qw fr) d = Some eligible /\
  req_waiting_mature (dept_of s1 d) = eligible - requests_admitted (snd r1) d /\
  req_waiting_new (dept_of s1 d) = requests_created st hi d /\
  (forall hi2 qw2 fr2,
     req_admit_bound (hour_problem s1 hi2 qw2 fr2) d =
       Some (req_waiting_mature (dept_of s1 d) + requests_created st hi d)) /\
  (lp_status (solve (hour_problem st hi qw fr)) = LpStatusOptimal ->
   hour s1 = hour st + 1) /\
  (lp_status (solve (hour_problem st hi qw fr)) <> LpStatusOptimal ->
   hour s1 = hour st).
Proof.
  cbv zeta.
  assert (Hb : forall s h q f,
    req_admit_bound (hour_problem s h q f) d =
      Some (req_waiting_mature (dept_of s d) + req_waiting_new (dept_of s d))).
  { intros s h q f. unfold hour_problem. rewrite req_admit_bound_build.
    destruct (pre_solve_fields s h) as (_ & _ & Hx).
    destruct (Hx d) as (_ & _ & _ & _ & _ & -> & _). reflexivity. }
  assert (Hmn :
    req_waiting_mature (dept_of (fst (optimize_hour solve st hi qw fr)) d) =
      req_waiting_mature (dept_of st d) + req_waiting_new (dept_of st d)
      - requests_admitted (snd (optimize_hour solve st hi qw fr)) d /\
    req_waiting_new (dept_of (fst (optimize_hour solve st hi qw fr)) d) =
      requests_created st hi d /\
    (lp_status (solve (hour_problem st hi qw fr)) = LpStatusOptimal ->
     hour (fst (optimize_hour solve st hi qw fr)) = hour st + 1) /\
    (lp_status (solve (hour_problem st hi qw fr)) <> LpStatusOptimal ->
     hour (fst (optimize_hour solve st hi qw fr)) = hour st)).
  { destruct (pre_solve_fields st hi) as (Hh & _ & Hx).
    destruct (Hx d) as (_ & _ & _ & _ & _ & Hm & _).
    pose proof (pre_solve_new st hi d) as Hn.
    destruct (LpStatus_optimal_dec (lp_status (solve (hour_problem st hi qw fr))))
      as [Hs | Hs].
    - rewrite (optimize_hour_optimal _ _ _ _ _ Hs).
      destruct (commit_fields (hour_problem st hi qw fr)
                  (lp_values (solve (hour_problem st hi qw fr)))
                  (fst (pre_solve st hi)) (snd (pre_solve st hi))) as (Hh' & Hd & _).
      destruct (commit_decisions (hour_problem st hi qw fr)
                  (lp_values (solve (hour_problem st hi qw fr)))
                  (fst (pre_solve st hi)) (snd (pre_solve st hi))) as (info & ->).
      rewrite Hd, Hh'. cbn [req_waiting_mature req_waiting_new requests_admitted].
      rewrite Hm, Hn, Hh.
      refine (conj _ (conj eq_refl (conj (fun _ => eq_refl) _)));
        [destruct d; reflexivity | congruence].
    - rewrite (optimize_hour_failed _ _ _ _ _ Hs). cbn [fst snd requests_admitted].
      rewrite Hm, Hn.
      refine (conj _ (conj eq_refl (conj _ (fun _ => Hh)))); [lia | congruence]. }
  destruct Hmn as (Hm & Hn & Hh & Hh').
  refine (conj (Hb _ _ _ _) (conj Hm (conj Hn (conj _ (conj Hh Hh'))))).
  intros hi2 qw2 fr2. rewrite Hb, Hn. reflexivity.
Qed.

Lemma requests_mature_in_the_next_call_witness :
  lp_status (idle_solver (hour_problem GameState_default two_transfers 1 300))
    = LpStatusOptimal /\
  req_admit_bound (hour_problem GameState_default two_transfers 1 300) SD = Some 0 /\
  requests_created GameState_default two_transfers SD = 2 /\
  req_admit_bound
    (hour_problem (fst (optimize_hour idle_solver GameState_default two_transfers 1 300))
       no_input 1 300) SD = Some 2 /\
  hour (fst (optimize_hour idle_solver GameState_default two_transfers 1 300)) = 2 /\
  hour (fst (optimize_hour unbounded_solver GameState_default two_transfers (-9) 300))
    = 1.
Proof.
  destruct (requests_mature_in_the_next_call idle_solver GameState_default
              two_transfers 1 300 SD) as (Hb & Hm & Hn & Hnext & Hh & _).
  destruct (requests_mature_in_the_next_call unbounded_solver GameState_default
              two_transfers (-9) 300 SD) as (_ & _ & _ & _ & _ & Hfail).
  split; [vm_compute; reflexivity|].
  split; [exact Hb|].
  split; [vm_compute; reflexivity|].
  split; [rewrite Hnext; vm_compute; reflexivity|].
  split; [apply Hh; vm_compute; reflexivity|].
  apply Hfail. simpl. discriminate.
Defined.

(** ** C4 and C9: departures and routing *)

(** C4.  The departure loop of the code is the departure step of the
    specification: [actual_departures] is the ready-to-exit count,
    clamped at zero, capped by the patients present, and is what leaves
    [patients]; the destination map is consumed discharge first, then the
    other departments in their fixed order, each entry clipped to what is
    still unallocated; the counts of departments go to the targets'
    [req_waiting_new]; what is left over is discharged. *)
Theorem departures_as_specified st hi :
  _apply_departures_and_requests st hi = departures_spec st hi /\
  (forall acc d, depart_from hi acc d = departure_step_spec hi acc d) /\
  (forall d,
     patients (dept_of (fst (_apply_departures_and_requests st hi)) d) =
       patients (dept_of st d)
       - Z.min (_clamp_non_negative (get0 (ready_to_exit hi) (dept_key d)))
               (patients (dept_of st d))).
Proof.
  split; [|split].
  - unfold _apply_departures_and_requests, departures_spec.
    cbn [DEPARTMENTS fold_left]. now rewrite !depart_from_spec.
  - apply depart_from_spec.
  - intros d. destruct (departures_fields st hi) as (_ & _ & Hx & _).
    destruct (Hx d) as (_ & _ & _ & _ & _ & _ & ->). reflexivity.
Qed.

(** C9.  In the loop turn of department [d], the count discharged from
    [d] plus everything the turn adds to the [req_waiting_new] queues
    equals [actual_departures], which is what the turn takes from
    [patients d]; no queue shrinks and [d] routes nothing to itself.
    Over the whole loop the discharged counts plus the requests created
    equal the patients that left. *)
Theorem departures_conserved st hi dis d :
  let r := depart_from hi (st, dis) d in
  let whole := _apply_departures_and_requests st hi in
  pd_get (snd r) d + (total_new (fst r) - total_new st) = actual_departures st hi d /\
  patients (dept_of st d) - patients (dept_of (fst r) d) = actual_departures st hi d /\
  req_waiting_new (dept_of (fst r) d) = req_waiting_new (dept_of st d) /\
  (forall x, req_waiting_new (dept_of st x) <= req_waiting_new (dept_of (fst r) x)) /\
  (forall x, patients (dept_of (fst r) x) =
     if dept_eqb x d then patients (dept_of st x) - actual_departures st hi d
     else patients (dept_of st x)) /\
  sumZ (pd_values (snd whole)) + (total_new (fst whole) - total_new st) =
    sumZ (map (fun x => patients (dept_of st x) - patients (dept_of (fst whole) x))
              DEPARTMENTS).
Proof.
  cbv zeta.
  destruct (depart_from_fields hi st dis d) as (_ & _ & Hx & Hn & Hc).
  destruct (departures_fields st hi) as (_ & _ & Hw & Hsum).
  repeat split.
  - exact Hc.
  - destruct (Hx d) as (_ & _ & _ & _ & _ & _ & Hp & _).
    rewrite Hp. replace (dept_eqb d d) with true by (destruct d; reflexivity). lia.
  - exact Hn.
  - intros x. apply Hx.
  - intros x. apply Hx.
  - rewrite Hsum. unfold sumZ. cbn [DEPARTMENTS map fold_left].
    destruct (Hw ED) as (_ & _ & _ & _ & _ & _ & ->).
    destruct (Hw SD) as (_ & _ & _ & _ & _ & _ & ->).
    destruct (Hw CC) as (_ & _ & _ & _ & _ & _ & ->).
    destruct (Hw SU) as (_ & _ & _ & _ & _ & _ & ->). lia.
Qed.

(** ** C5: the staff-bound scenario *)

Lemma evalQ_inject (a : Var -> Z) e :
  (evalQ (fun v => inject_Z (a v)) e == inject_Z (eval a e))%Q.
Proof.
  induction e as [c|v|e1 IH1 e2 IH2|e1 IH1 e2 IH2|k e IH]; simpl.
  - reflexivity.
  - reflexivity.
  - rewrite IH1, IH2, inject_Z_plus. reflexivity.
  - rewrite IH1, IH2. unfold Z.sub. rewrite inject_Z_plus, inject_Z_opp. reflexivity.
  - rewrite IH, inject_Z_mult. reflexivity.
Qed.

Lemma objective_default_eq s (a : Var -> Z) :
  (objective (build_problem s 1 300) a
   == inject_Z (objective_default (build_problem s 1 300) a))%Q.
Proof.
  unfold objective, objective_at, objective_default.
  cbn [lp_quality_weight lp_flow_reward build_problem lp_financial lp_quality
       lp_throughput].
  rewrite !evalQ_inject.
  unfold Z.sub. rewrite !inject_Z_plus, inject_Z_opp, inject_Z_mult.
  change (inject_Z 300) with 300%Q. lra.
Qed.

Lemma optimal_default s a :
  optimal (build_problem s 1 300) a <->
  feasible (build_problem s 1 300) a /\
  forall b, feasible (build_problem s 1 300) b ->
            objective_default (build_problem s 1 300) a
            <= objective_default (build_problem s 1 300) b.
Proof.
  unfold optimal. split; intros [Hf Hmin]; (split; [exact Hf|]); intros b Hb.
  - rewrite Zle_Qle, <- !objective_default_eq. now apply Hmin.
  - rewrite !objective_default_eq. rewrite <- Zle_Qle. now apply Hmin.
Qed.

Lemma no_better_point s a b :
  optimal (build_problem s 1 300) a ->
  feasible (build_problem s 1 300) b ->
  objective_default (build_problem s 1 300) a
  <= objective_default (build_problem s 1 300) b.
Proof.
  intros Hopt Hb. apply optimal_default in Hopt. now apply Hopt.
Qed.

Lemma feasible_by_dept s qw fr a :
  feasible (build_problem s qw fr) a <->
  ed_ok s a /\ dept_ok s a ED /\ dept_ok s a SD /\ dept_ok s a CC /\ dept_ok s a SU.
Proof.
  rewrite feasible_build. unfold ed_ok, dept_ok. cbn [dept_eqb]. split.
  - intros (Hv & He & Hx & Hr & Hw & Ha & Hd & Hs & Hc & Hp).
    pose proof (Hx SD ltac:(discriminate)). pose proof (Hx CC ltac:(discriminate)).
    pose proof (Hx SU ltac:(discriminate)).
    repeat split; auto.
  - intros (He & H1 & H2 & H3 & H4).
    repeat split; try tauto.
    + intros v; destruct v as [d| | |d|d|]; try destruct d; tauto.
    + intros d Hd; destruct d; try tauto; congruence.
    + intros d; destruct d; tauto.
    + intros d; destruct d; tauto.
    + intros d; destruct d; tauto.
Qed.

Lemma objective_default_by_dept s a :
  objective_default (build_problem s 1 300) a =
    ed_cost s a + other_cost s a SD + other_cost s a CC + other_cost s a SU.
Proof.
  unfold objective_default, ed_cost, other_cost.
  cbn [build_problem lp_financial lp_quality lp_throughput financial_expr quality_expr
       throughput_expr lpSum ed_waiting_end ext_wait_end ed_walkin_wait_end
       ed_ambulance_wait_end req_wait_end fold_left map DEPARTMENTS eval
       FINANCIAL QUALITY].
  ring.
Qed.

Ltac by_dept_in H :=
  apply feasible_by_dept in H; unfold ed_ok, dept_ok in H;
  cbn [dept_eqb eval patients_end TOTAL_ROOMS] in H;
  decompose [and] H; clear H.

Ltac by_dept_goal :=
  apply feasible_by_dept; unfold ed_ok, dept_ok, upd;
  cbn [dept_eqb eval patients_end TOTAL_ROOMS var_eqb];
  repeat split; first [assumption | lia].

Ltac compare_costs H :=
  rewrite !objective_default_by_dept in H;
  unfold ed_cost, other_cost, upd in H; cbn [var_eqb dept_eqb] in H.

(** Under the default weights an optimal point admits external arrivals
    to a department other than Emergency until the queue or the rooms
    run out: a missing staff member costs 45, a waiting arrival 3770
    and the flow reward of 300. *)
Lemma optimum_fills_rooms s a d :
  d <> ED ->
  optimal (build_problem s 1 300) a ->
  a (admit_ext d) =
    Z.min (ext_waiting (dept_of s d)) (TOTAL_ROOMS d - patients (dept_of s d)).
Proof.
  intros Hd Hopt.
  pose proof (no_better_point s a
    (upd (upd a (admit_ext d) (a (admit_ext d) + 1))
         (extra_staff d) (a (extra_staff d) + 1)) Hopt) as Hmore.
  pose proof (no_better_point s a
    (upd (upd a (admit_ext d) (a (admit_ext d) + 1))
         (admit_req d) (a (admit_req d) - 1)) Hopt) as Hswap.
  destruct Hopt as [Hf _]. by_dept_in Hf.
  destruct (Z.eq_dec (a (admit_ext d))
              (Z.min (ext_waiting (dept_of s d))
                     (TOTAL_ROOMS d - patients (dept_of s d)))) as [|Hne];
    [assumption|exfalso].
  destruct (Z_lt_le_dec
              (patients (dept_of s d) + a (admit_ext d) + a (admit_req d))
              (TOTAL_ROOMS d)) as [Hroom | Hfull].
  - clear Hswap.
    destruct d; [congruence| | |]; cbn [TOTAL_ROOMS] in *;
      (match type of Hmore with
       | feasible ?p ?b -> _ => assert (Hb : feasible p b) by by_dept_goal
       end);
      apply Hmore in Hb; compare_costs Hb; lia.
  - clear Hmore.
    destruct d; [congruence| | |]; cbn [TOTAL_ROOMS] in *;
      (match type of Hswap with
       | feasible ?p ?b -> _ => assert (Hb : feasible p b) by by_dept_goal
       end);
      apply Hswap in Hb; compare_costs Hb; lia.
Qed.

(** An optimal point calls exactly the staff its admissions lack: every
    extra staff member costs 45 and earns nothing. *)
Lemma optimum_calls_missing_staff s a d :
  optimal (build_problem s 1 300) a ->
  a (extra_staff d) = Z.max 0 (eval a (patients_end s d) - staff (dept_of s d)).
Proof.
  intros Hopt.
  pose proof (no_better_point s a
    (upd a (extra_staff d) (a (extra_staff d) - 1)) Hopt) as Hless.
  destruct Hopt as [Hf _]. by_dept_in Hf.
  destruct (Z.eq_dec (a (extra_staff d))
              (Z.max 0 (eval a (patients_end s d) - staff (dept_of s d)))) as [|Hne];
    [assumption|exfalso].
  destruct d; cbn [dept_eqb eval patients_end] in *;
    (match type of Hless with
     | feasible ?p ?b -> _ => assert (Hb : feasible p b) by by_dept_goal
     end);
    apply Hless in Hb; compare_costs Hb; lia.
Qed.

Ltac normalise_state s :=
  let v := eval vm_compute in s in
  let E := fresh "E" in
  assert (E : s = v) by (vm_compute; reflexivity);
  rewrite E in *; clear E.

Lemma scenario_C_solution_optimal :
  optimal (build_problem scenario_C_state 1 300) scenario_C_solution.
Proof.
  apply optimal_default. split; [vm_compute; reflexivity|].
  intros b Hb. rewrite !objective_default_by_dept.
  normalise_state scenario_C_state.
  by_dept_in Hb.
  unfold ed_cost, other_cost, scenario_C_solution.
  cbn [dept_of pd_get depts at_ED at_SD at_CC at_SU patients staff ext_waiting
       ed_walkin_waiting ed_ambulance_waiting req_waiting_mature req_waiting_new] in *.
  lia.
Qed.

(** C5, as amended.  In the staff-bound scenario every optimal solution
    under the default weights admits to Step-Down as many of the ten
    arrivals as there are free rooms, which is more than the two the
    present staff allows, and calls the extra staff that this takes. *)
Theorem staff_gap_is_closed_by_extra_staff s a :
  staff_bound_scenario s ->
  optimal (build_problem s 1 300) a ->
  a (admit_ext SD) = Z.min 10 (TOTAL_ROOMS SD - patients (dept_of s SD)) /\
  2 < a (admit_ext SD) /\
  a (extra_staff SD) = a (admit_ext SD) + a (admit_req SD) - 2.
Proof.
  intros (Hq & Hs & Hr) Hopt.
  pose proof (optimum_fills_rooms s a SD ltac:(discriminate) Hopt) as Hx.
  pose proof (optimum_calls_missing_staff s a SD Hopt) as He.
  destruct Hopt as [Hf _]. by_dept_in Hf.
  cbn [dept_eqb eval patients_end TOTAL_ROOMS] in *.
  rewrite Hq in Hx. repeat split; lia.
Qed.

Lemma staff_gap_is_closed_by_extra_staff_witness :
  scenario_C_solution (admit_ext SD)
    = Z.min 10 (TOTAL_ROOMS SD - patients (dept_of scenario_C_state SD)) /\
  2 < scenario_C_solution (admit_ext SD) /\
  scenario_C_solution (extra_staff SD)
    = scenario_C_solution (admit_ext SD) + scenario_C_solution (admit_req SD) - 2.
Proof.
  apply (staff_gap_is_closed_by_extra_staff scenario_C_state scenario_C_solution).
  - vm_compute. repeat split; reflexivity.
  - exact scenario_C_solution_optimal.
Defined.

(** C5, counterexample.  From the initial state (Step-Down: 22 patients,
    24 staff, 30 rooms) with ten Step-Down arrivals, the scenario holds
    and the point that admits eight arrivals with six extra staff is
    optimal; no optimal point admits two. *)
Lemma scenario_C_admits_eight :
  staff_bound_scenario scenario_C_state /\
  optimal (build_problem scenario_C_state 1 300) scenario_C_solution /\
  scenario_C_solution (admit_ext SD) = 8 /\
  (forall a, optimal (build_problem scenario_C_state 1 300) a -> a (admit_ext SD) = 8) /\
  ~ scenario_C_claim.
Proof.
  assert (Hsc : staff_bound_scenario scenario_C_state)
    by (vm_compute; repeat split; reflexivity).
  split; [exact Hsc|]. split; [exact scenario_C_solution_optimal|].
  split; [reflexivity|]. split.
  - intros a Ha.
    rewrite (optimum_fills_rooms _ _ SD ltac:(discriminate) Ha).
    vm_compute. reflexivity.
  - intros Hclaim.
    specialize (Hclaim scenario_C_state scenario_C_solution Hsc
                  scenario_C_solution_optimal).
    discriminate Hclaim.
Qed.

(** ** C6: who validates the destination split *)

Lemma optimize_hour_raises_iff solve st hi qw fr :
  (exists h s, snd (optimize_hour solve st hi qw fr) = Raised h s) <->
  lp_status (solve (hour_problem st hi qw fr)) <> LpStatusOptimal.
Proof.
  destruct (LpStatus_optimal_dec (lp_status (solve (hour_problem st hi qw fr))))
    as [Hs | Hs].
  - rewrite (optimize_hour_optimal _ _ _ _ _ Hs).
    destruct (commit_decisions (hour_problem st hi qw fr)
                (lp_values (solve (hour_problem st hi qw fr)))
                (fst (pre_solve st hi)) (snd (pre_solve st hi))) as (info & ->).
    split; [intros (h & s & Hr); discriminate | congruence].
  - rewrite (optimize_hour_failed _ _ _ _ _ Hs). cbn [snd].
    split; [intros _; exact Hs | eauto].
Qed.

Lemma collect_one_errors f e m d :
  fst (collect_one f (e, m) d) =
    (e ++ if form_mismatchb f d
          then [mkSplitError d (sumZ (map (f_split f d) (targets d))) (f_ready f d)]
          else [])%list.
Proof.
  unfold collect_one, form_mismatchb.
  destruct (0 <? f_ready f d); cbn [andb fst];
    [destruct (sumZ (map (f_split f d) (targets d)) =? f_ready f d); cbn [negb fst]|];
    now rewrite ?app_nil_r.
Qed.

Lemma collect_rejects_iff f :
  fst (_collect_hour_input f) = None <-> exists d, form_mismatchb f d = true.
Proof.
  unfold _collect_hour_input. cbn [DEPARTMENTS fold_left].
  pose proof (collect_one_errors f [] ∅ ED) as H1.
  destruct (collect_one f ([], ∅) ED) as [e1 m1].
  pose proof (collect_one_errors f e1 m1 SD) as H2.
  destruct (collect_one f (e1, m1) SD) as [e2 m2].
  pose proof (collect_one_errors f e2 m2 CC) as H3.
  destruct (collect_one f (e2, m2) CC) as [e3 m3].
  pose proof (collect_one_errors f e3 m3 SU) as H4.
  destruct (collect_one f (e3, m3) SU) as [e4 m4].
  cbn [fst] in *. subst e1 e2 e3 e4.
  destruct (form_mismatchb f ED) eqn:B1, (form_mismatchb f SD) eqn:B2,
           (form_mismatchb f CC) eqn:B3, (form_mismatchb f SU) eqn:B4;
    cbn [app fst];
    (split; [intros Hn; try discriminate; eauto | intros (d & Hd)]);
    try reflexivity; destruct d; congruence.
Qed.

(** C6, as amended.  The core does not validate the destination split:
    [optimize_hour] raises exactly when the solver's status is not
    optimal, whatever the split, and clips the split instead.  The
    validation error belongs to the input form: [_collect_hour_input]
    yields no [HourInput] exactly when some department with a positive
    ready-to-exit count has a split of a different total, and then lists
    at least one error, so the core is not called with it. *)
Theorem split_is_validated_by_the_form solve st hi qw fr f :
  ((exists h s, snd (optimize_hour solve st hi qw fr) = Raised h s) <->
   lp_status (solve (hour_problem st hi qw fr)) <> LpStatusOptimal) /\
  (fst (_collect_hour_input f) = None <->
   exists d, 0 < f_ready f d /\
             sumZ (map (f_split f d) (targets d)) <> f_ready f d) /\
  (fst (_collect_hour_input f) = None <-> snd (_collect_hour_input f) <> []).
Proof.
  split; [apply optimize_hour_raises_iff|]. split.
  - rewrite collect_rejects_iff. unfold form_mismatchb.
    split; intros (d & Hd); exists d.
    + apply andb_true_iff in Hd. destruct Hd as [Hr Hs].
      apply Z.ltb_lt in Hr. apply negb_true_iff, Z.eqb_neq in Hs. auto.
    + destruct Hd as [Hr Hs]. apply andb_true_iff.
      split; [now apply Z.ltb_lt | now apply negb_true_iff, Z.eqb_neq].
  - unfold _collect_hour_input.
    destruct (fold_left (collect_one f) DEPARTMENTS ([], ∅)) as [[|e errors] dests];
      cbn [fst snd]; split; congruence.
Qed.

Lemma split_is_validated_by_the_form_witness :
  lp_status (idle_solver (hour_problem GameState_default mismatched_input 1 300))
    = LpStatusOptimal /\
  ~ (exists h s,
       snd (optimize_hour idle_solver GameState_default mismatched_input 1 300)
       = Raised h s) /\
  fst (_collect_hour_input mismatched_form) = None /\
  snd (_collect_hour_input mismatched_form) <> [].
Proof.
  destruct (split_is_validated_by_the_form idle_solver GameState_default
              mismatched_input 1 300 mismatched_form) as (Hcore & Hform & Herr).
  assert (Hs : lp_status
                 (idle_solver (hour_problem GameState_default mismatched_input 1 300))
               = LpStatusOptimal) by (vm_compute; reflexivity).
  assert (Hnone : fst (_collect_hour_input mismatched_form) = None).
  { apply Hform. exists ED. vm_compute. split; [reflexivity | discriminate]. }
  split; [exact Hs|]. split; [|split; [exact Hnone | now apply Herr]].
  intros Hr. apply Hcore in Hr. now apply Hr.
Defined.

(** C6, counterexample.  Two patients are ready to leave Emergency and
    the split declares five discharged.  The call succeeds, the two
    patients have left and are counted as discharged. *)
Lemma core_accepts_mismatched_split :
  split_mismatch mismatched_input /\
  (exists decisions info,
     snd (optimize_hour idle_solver GameState_default mismatched_input 1 300)
     = Returned decisions info) /\
  patients (dept_of GameState_default ED) = 16 /\
  patients
    (dept_of (fst (optimize_hour idle_solver GameState_default mismatched_input 1 300))
       ED) = 14 /\
  ~ core_rejects_mismatch.
Proof.
  assert (Hm : split_mismatch mismatched_input).
  { exists ED. vm_compute. discriminate. }
  split; [exact Hm|]. split; [|split; [reflexivity|split; [vm_compute; reflexivity|]]].
  - assert (Hs : lp_status
                   (idle_solver (hour_problem GameState_default mismatched_input 1 300))
                 = LpStatusOptimal) by (vm_compute; reflexivity).
    rewrite (optimize_hour_optimal _ _ _ _ _ Hs).
    destruct (commit_decisions
                (hour_problem GameState_default mismatched_input 1 300)
                (lp_values
                   (idle_solver (hour_problem GameState_default mismatched_input 1 300)))
                (fst (pre_solve GameState_default mismatched_input))
                (snd (pre_solve GameState_default mismatched_input))) as (info & ->).
    eauto.
  - intros Hclaim.
    destruct (Hclaim idle_solver GameState_default mismatched_input 1%Q 300%Q Hm)
      as [_ Heq].
    apply (f_equal (fun s => patients (dept_of s ED))) in Heq.
    vm_compute in Heq. discriminate.
Qed.

(** ** C7: the cumulative costs *)

Lemma totals_le_refl t : totals_le t t.
Proof. unfold totals_le, others_le. repeat split; lia. Qed.

Lemma totals_le_trans t1 t2 t3 : totals_le t1 t2 -> totals_le t2 t3 -> totals_le t1 t3.
Proof. unfold totals_le, others_le. intros H1 H2. repeat split; lia. Qed.

Lemma totals_le_costs t t' :
  totals_le t t' ->
  financial_cost t <= financial_cost t' /\ quality_penalty t <= quality_penalty t'.
Proof.
  unfold totals_le, others_le, financial_cost, quality_penalty.
  cbn [FINANCIAL QUALITY]. intros H. split; lia.
Qed.

Lemma depart_from_discharged hi st dis d :
  0 <= patients (dept_of st d) -> 0 <= pd_get (snd (depart_from hi (st, dis) d)) d.
Proof.
  rewrite depart_from_spec.
  unfold departure_step_spec, actual_departures, _clamp_non_negative.
  destruct d;
    cbn [DEPARTMENTS fold_left destination_order List.filter map negb dept_eqb
         consume target_key dept_key credit fst snd pd_get pd_set
         at_ED at_SD at_CC at_SU];
    intros Hp; cbn in *; unfold _clamp_non_negative; lia.
Qed.

(** With no negative patient count, every department's discharge count
    is non-negative. *)
Lemma departures_discharged st hi :
  (forall d, 0 <= patients (dept_of st d)) ->
  0 <= sumZ (pd_values (snd (_apply_departures_and_requests st hi))).
Proof.
  intros Hp. unfold _apply_departures_and_requests. cbn [DEPARTMENTS fold_left].
  pose proof (depart_from_discharged hi st (pd_init (fun _ : Dept => 0)) ED (Hp ED)) as D1.
  step_fields hi st (pd_init (fun _ : Dept => 0)) ED ipattern:([s1 d1]) Hh1 Ht1 H1 Hn1 Hc1.
  pose proof (depart_from_discharged hi s1 d1 SD) as D2.
  step_fields hi s1 d1 SD ipattern:([s2 d2]) Hh2 Ht2 H2 Hn2 Hc2.
  pose proof (depart_from_discharged hi s2 d2 CC) as D3.
  step_fields hi s2 d2 CC ipattern:([s3 d3]) Hh3 Ht3 H3 Hn3 Hc3.
  pose proof (depart_from_discharged hi s3 d3 SU) as D4.
  step_fields hi s3 d3 SU ipattern:([s4 d4]) Hh4 Ht4 H4 Hn4 Hc4.
  cbn [fst snd] in *.
  pose proof (Hp SD). pose proof (Hp CC). pose proof (Hp SU).
  at_all_depts H1. at_all_depts H2. at_all_depts H3. at_all_depts H4.
  unfold sumZ, pd_values in *.
  cbn [dept_eqb map fold_left DEPARTMENTS pd_get] in *.
  lia.
Qed.

(** One successful call: what it does to the counters and to the
    patient counts. *)
Lemma successful_call_accumulates solve st hi qw fr :
  lp_status (solve (hour_problem st hi qw fr)) = LpStatusOptimal ->
  feasible (hour_problem st hi qw fr)
    (rounded (lp_values (solve (hour_problem st hi qw fr)))) ->
  let s' := fst (optimize_hour solve st hi qw fr) in
  totals_le (totals st) (totals s') /\
  ((forall d, 0 <= patients (dept_of st d)) ->
   (forall d, 0 <= patients (dept_of s' d)) /\
   discharged_out (totals st) <= discharged_out (totals s')).
Proof.
  intros Hs Hf. cbv zeta. rewrite (optimize_hour_optimal _ _ _ _ _ Hs).
  unfold hour_problem in Hf.
  destruct (commit_fields (hour_problem st hi qw fr)
              (lp_values (solve (hour_problem st hi qw fr)))
              (fst (pre_solve st hi)) (snd (pre_solve st hi))) as (_ & Hd & Ht).
  set (v := rounded (lp_values (solve (hour_problem st hi qw fr)))) in *.
  unfold hour_problem in v. fold v in Hf.
  destruct (pre_solve_fields st hi) as (_ & Ht0 & Hx).
  by_dept_in Hf.
  pose proof (Hx ED) as (Hp1 & _ & _ & _ & _ & _ & Hn1).
  pose proof (Hx SD) as (Hp2 & _ & _ & _ & _ & _ & Hn2).
  pose proof (Hx CC) as (Hp3 & _ & _ & _ & _ & _ & Hn3).
  pose proof (Hx SU) as (Hp4 & _ & _ & _ & _ & _ & Hn4).
  split.
  - rewrite Ht, Ht0. unfold totals_le, others_le, others_add.
    rewrite !Hd.
    cbn [ed_diversions ed_waiting ed_extra_staff dep_arrivals_waiting
         dep_requests_waiting dep_extra_staff throughput_admitted
         o_SD o_CC o_SU dept_eqb ext_waiting ed_walkin_waiting ed_ambulance_waiting
         req_waiting_mature req_waiting_new].
    repeat split; lia.
  - intros Hpos.
    pose proof (Hpos ED). pose proof (Hpos SD). pose proof (Hpos CC). pose proof (Hpos SU).
    split.
    + intros d. rewrite Hd. cbn [patients].
      unfold _clamp_non_negative in *. destruct d; cbn [dept_eqb]; lia.
    + rewrite Ht, Ht0. cbn [discharged_out].
      assert (0 <= sumZ (pd_values (snd (pre_solve st hi)))); [|lia].
      unfold pre_solve.
      pose proof (departures_discharged (_roll_request_age st) hi) as Hdis.
      destruct (_apply_departures_and_requests (_roll_request_age st) hi) as [s1 dis].
      cbn [fst snd] in *. apply Hdis.
      intros d. destruct (roll_fields st) as (_ & _ & Hr). rewrite Hr.
      cbn [patients with_req_waiting_new with_req_waiting_mature]. apply Hpos.
Qed.

Lemma idle_solver_sound : sound_solver idle_solver.
Proof.
  intros p. unfold idle_solver.
  destruct (feasibleb p idle_point) eqn:Hf; cbn [lp_status lp_values]; [|discriminate].
  intros _. unfold feasible. rewrite <- Hf. apply feasibleb_ext. reflexivity.
Qed.

(** C7.  Over every sequence of successful calls, with a solver whose
    rounded values satisfy the program, [financial_cost()] and
    [quality_penalty()] at the end are at least what they were at the
    start: no counter that enters a cost, nor the admitted count, ever
    decreases, the discharged count does not decrease when no patient
    count is negative, and no unit cost is negative. *)
Theorem costs_never_decrease solve calls :
  sound_solver solve ->
  forall st st',
    play solve st calls = Some st' ->
    financial_cost (totals st) <= financial_cost (totals st') /\
    quality_penalty (totals st) <= quality_penalty (totals st') /\
    totals_le (totals st) (totals st') /\
    ((forall d, 0 <= patients (dept_of st d)) ->
     discharged_out (totals st) <= discharged_out (totals st')) /\
    (forall d c, 0 <= FINANCIAL d c /\ 0 <= QUALITY d c).
Proof.
  intros Hsound.
  assert (Hmain : forall st st', play solve st calls = Some st' ->
    totals_le (totals st) (totals st') /\
    ((forall d, 0 <= patients (dept_of st d)) ->
     (forall d, 0 <= patients (dept_of st' d)) /\
     discharged_out (totals st) <= discharged_out (totals st'))).
  { induction calls as [|c rest IH]; intros st st' Hplay; cbn [play] in Hplay.
    - inversion Hplay; subst. split; [apply totals_le_refl|]. intros Hp. split; [exact Hp|lia].
    - set (hi := call_input c) in *. set (qw := call_quality_weight c) in *.
      set (fr := call_flow_reward c) in *.
      destruct (LpStatus_optimal_dec (lp_status (solve (hour_problem st hi qw fr))))
        as [Hs | Hs].
      + pose proof (successful_call_accumulates solve st hi qw fr Hs
                      (Hsound _ Hs)) as [Hle Hpos].
        destruct (optimize_hour solve st hi qw fr) as [s1 [h e | decs info]];
          [discriminate|]. cbn [fst] in *.
        destruct (IH _ _ Hplay) as [Hle' Hpos'].
        split; [eapply totals_le_trans; eassumption|].
        intros Hp. destruct (Hpos Hp) as [Hp1 Hd1].
        destruct (Hpos' Hp1) as [Hp2 Hd2]. split; [exact Hp2 | lia].
      + rewrite (optimize_hour_failed _ _ _ _ _ Hs) in Hplay. discriminate. }
  intros st st' Hplay. destruct (Hmain st st' Hplay) as [Hle Hpos].
  destruct (totals_le_costs _ _ Hle) as [Hfin Hq].
  repeat split; try assumption; try apply Hle.
  - intros Hp. now apply Hpos.
  - destruct d, c; cbn; lia.
  - destruct d, c; cbn; lia.
Qed.

Lemma costs_never_decrease_witness :
  option_map (fun s => (financial_cost (totals s), quality_penalty (totals s)))
    (play idle_solver GameState_default two_hours) = Some (900, 160) /\
  forall st', play idle_solver GameState_default two_hours = Some st' ->
    financial_cost (totals GameState_default) <= financial_cost (totals st') /\
    quality_penalty (totals GameState_default) <= quality_penalty (totals st').
Proof.
  split.
  - vm_compute. reflexivity.
  - intros st' Hplay.
    destruct (costs_never_decrease idle_solver two_hours idle_solver_sound
                GameState_default st' Hplay) as (Hf & Hq & _).
    split; assumption.
Defined.

(** ** C8: diversion *)

(** C8.  In a successful call the walk-in queue ends as it started plus
    the walk-in arrivals minus the walk-ins admitted, and the ambulance
    queue as it started plus the ambulance arrivals minus the ambulances
    admitted and diverted; the solved values satisfy
    [admit_ed_ambulance + divert_ed <= ed_ambulance_waiting]; and
    changing nothing but the value of [divert_ed] changes no field of
    any department but Emergency's [ed_ambulance_waiting]. *)
Theorem diversion_only_takes_ambulances solve st hi qw fr :
  lp_status (solve (hour_problem st hi qw fr)) = LpStatusOptimal ->
  feasible (hour_problem st hi qw fr)
    (rounded (lp_values (solve (hour_problem st hi qw fr)))) ->
  let v := rounded (lp_values (solve (hour_problem st hi qw fr))) in
  let s' := fst (optimize_hour solve st hi qw fr) in
  ed_walkin_waiting (dept_of s' ED) =
    ed_walkin_waiting (dept_of st ED) + _clamp_non_negative (ed_walkin_arrivals hi)
    - v admit_ed_walkin /\
  ed_ambulance_waiting (dept_of s' ED) =
    ed_ambulance_waiting (dept_of st ED) + _clamp_non_negative (ed_ambulance_arrivals hi)
    - v admit_ed_ambulance - v divert_ed /\
  v admit_ed_ambulance + v divert_ed <=
    ed_ambulance_waiting (dept_of st ED) + _clamp_non_negative (ed_ambulance_arrivals hi) /\
  (exists info,
     snd (optimize_hour solve st hi qw fr) = Returned (solved_decisions v) info) /\
  (forall x' : Var -> Q,
     (forall u, u <> divert_ed ->
                x' u = lp_values (solve (hour_problem st hi qw fr)) u) ->
     forall d,
       with_ed_ambulance_waiting
         (dept_of (fst (commit (hour_problem st hi qw fr) x'
                          (fst (pre_solve st hi)) (snd (pre_solve st hi)))) d) 0
       = with_ed_ambulance_waiting (dept_of s' d) 0).
Proof.
  intros Hs Hf. cbv zeta. rewrite (optimize_hour_optimal _ _ _ _ _ Hs).
  destruct (commit_fields (hour_problem st hi qw fr)
              (lp_values (solve (hour_problem st hi qw fr)))
              (fst (pre_solve st hi)) (snd (pre_solve st hi)))
    as (_ & Hd & _).
  destruct (pre_solve_fields st hi) as (_ & _ & Hx).
  destruct (Hx ED) as (_ & _ & _ & Hw & Ha & _ & _).
  cbn [dept_eqb] in Hw, Ha.
  by_dept_in Hf.
  refine (conj _ (conj _ (conj _ (conj _ _)))).
  - rewrite Hd. cbn [ed_walkin_waiting dept_eqb]. lia.
  - rewrite Hd. cbn [ed_ambulance_waiting dept_eqb]. lia.
  - lia.
  - apply commit_decisions.
  - intros x' Hx' d.
    destruct (commit_fields (hour_problem st hi qw fr) x'
                (fst (pre_solve st hi)) (snd (pre_solve st hi)))
      as (_ & Hd' & _).
    rewrite Hd, Hd'. unfold rounded.
    destruct d; cbn [dept_eqb with_ed_ambulance_waiting patients staff ext_waiting
                     ed_walkin_waiting ed_ambulance_waiting req_waiting_mature
                     req_waiting_new];
      rewrite ?(Hx' admit_ed_walkin), ?(Hx' admit_ed_ambulance),
              ?(Hx' (admit_req _)), ?(Hx' (extra_staff _)), ?(Hx' (admit_ext _))
        by discriminate;
      reflexivity.
Qed.

Lemma diversion_only_takes_ambulances_witness :
  ed_walkin_waiting
    (dept_of (fst (optimize_hour diverting_solver GameState_default two_ambulances 1 300))
       ED) = 1 /\
  ed_ambulance_waiting
    (dept_of (fst (optimize_hour diverting_solver GameState_default two_ambulances 1 300))
       ED) = 0.
Proof.
  destruct (diversion_only_takes_ambulances diverting_solver GameState_default
              two_ambulances 1 300) as (Hw & Ha & _).
  - reflexivity.
  - vm_compute. reflexivity.
  - rewrite Hw, Ha. split; vm_compute; reflexivity.
Defined.

(** ** C10: missing keys *)

Lemma get0_insert_absent {K} `{Countable K} (m : gmap K Z) (k k' : K) :
  m !! k = None -> get0 (<[k := 0]> m) k' = get0 m k'.
Proof.
  intros Hk. unfold get0. destruct (decide (k = k')) as [->|Hne].
  - now rewrite lookup_insert_eq, Hk.
  - now rewrite lookup_insert_ne.
Qed.

Lemma route_to_reads hi hi' d acc t :
  same_reads hi hi' -> route_to hi d acc t = route_to hi' d acc t.
Proof.
  intros (_ & _ & _ & _ & _ & Hd). unfold route_to. destruct acc as [s r].
  now rewrite Hd.
Qed.

Lemma depart_from_reads hi hi' acc d :
  same_reads hi hi' -> depart_from hi acc d = depart_from hi' acc d.
Proof.
  intros Hsame. pose proof Hsame as (_ & _ & _ & _ & Hr & Hd).
  unfold depart_from. destruct acc as [s dis].
  cbn [DEPARTMENTS fold_left].
  rewrite !(route_to_reads hi hi' d _ _ Hsame), Hr, Hd. reflexivity.
Qed.

Lemma arrive_one_reads hi hi' s d :
  same_reads hi hi' -> arrive_one hi s d = arrive_one hi' s d.
Proof.
  intros (He & Hw & Ha & Hs & _ & _). unfold arrive_one.
  now rewrite He, Hw, Ha, Hs.
Qed.

Lemma pre_solve_reads hi hi' st :
  same_reads hi hi' -> pre_solve st hi = pre_solve st hi'.
Proof.
  intros Hsame. unfold pre_solve, _apply_departures_and_requests,
    apply_arrivals_and_staff.
  cbn [DEPARTMENTS fold_left].
  rewrite !(depart_from_reads hi hi' _ _ Hsame).
  destruct (depart_from hi' _ SU) as [s dis].
  now rewrite !(arrive_one_reads hi hi' _ _ Hsame).
Qed.

Lemma optimize_hour_reads solve st hi hi' qw fr :
  same_reads hi hi' ->
  optimize_hour solve st hi qw fr = optimize_hour solve st hi' qw fr.
Proof.
  intros Hsame. unfold optimize_hour. now rewrite (pre_solve_reads hi hi' st Hsame).
Qed.

(** C10.  A department key missing from [external_arrivals],
    [staff_delta], [ready_to_exit] or (with any target) from
    [destinations] is read as zero: the call does to the state, and
    returns or raises, exactly what it does when the key is present with
    value 0; and whatever keys are missing, the call returns when the
    solver's status is optimal. *)
Theorem missing_keys_read_as_zero solve st hi qw fr d :
  (external_arrivals hi !! dept_key d = None ->
   optimize_hour solve st
     (with_external_arrivals hi (<[dept_key d := 0]> (external_arrivals hi))) qw fr
   = optimize_hour solve st hi qw fr) /\
  (staff_delta hi !! dept_key d = None ->
   optimize_hour solve st
     (with_staff_delta hi (<[dept_key d := 0]> (staff_delta hi))) qw fr
   = optimize_hour solve st hi qw fr) /\
  (ready_to_exit hi !! dept_key d = None ->
   optimize_hour solve st
     (with_ready_to_exit hi (<[dept_key d := 0]> (ready_to_exit hi))) qw fr
   = optimize_hour solve st hi qw fr) /\
  (forall k, destinations hi !! (dept_key d, k) = None ->
   optimize_hour solve st
     (with_destinations hi (<[(dept_key d, k) := 0]> (destinations hi))) qw fr
   = optimize_hour solve st hi qw fr) /\
  (lp_status (solve (hour_problem st hi qw fr)) = LpStatusOptimal ->
   exists decisions info,
     snd (optimize_hour solve st hi qw fr) = Returned decisions info).
Proof.
  refine (conj _ (conj _ (conj _ (conj _ _)))).
  - intros Hk. apply optimize_hour_reads. unfold same_reads, with_external_arrivals.
    cbn [external_arrivals ed_walkin_arrivals ed_ambulance_arrivals staff_delta
         ready_to_exit destinations].
    repeat split; try reflexivity. intros k. now apply get0_insert_absent.
  - intros Hk. apply optimize_hour_reads. unfold same_reads, with_staff_delta.
    cbn [external_arrivals ed_walkin_arrivals ed_ambulance_arrivals staff_delta
         ready_to_exit destinations].
    repeat split; try reflexivity. intros k. now apply get0_insert_absent.
  - intros Hk. apply optimize_hour_reads. unfold same_reads, with_ready_to_exit.
    cbn [external_arrivals ed_walkin_arrivals ed_ambulance_arrivals staff_delta
         ready_to_exit destinations].
    repeat split; try reflexivity. intros k. now apply get0_insert_absent.
  - intros k Hk. apply optimize_hour_reads. unfold same_reads, with_destinations.
    cbn [external_arrivals ed_walkin_arrivals ed_ambulance_arrivals staff_delta
         ready_to_exit destinations].
    repeat split; try reflexivity. intros k'. now apply get0_insert_absent.
  - intros Hs. rewrite (optimize_hour_optimal _ _ _ _ _ Hs).
    destruct (commit_decisions (hour_problem st hi qw fr)
                (lp_values (solve (hour_problem st hi qw fr)))
                (fst (pre_solve st hi)) (snd (pre_solve st hi))) as (info & ->).
    eauto.
Qed.

Lemma missing_keys_read_as_zero_witness :
  optimize_hour idle_solver GameState_default
    (with_ready_to_exit no_input (<["SD" := 0]> (ready_to_exit no_input))) 1 300
  = optimize_hour idle_solver GameState_default no_input 1 300 /\
  exists decisions info,
    snd (optimize_hour idle_solver GameState_default no_input 1 300)
    = Returned decisions info.
Proof.
  destruct (missing_keys_read_as_zero idle_solver GameState_default no_input 1 300 SD)
    as (_ & _ & Hr & _ & Hret).
  split.
  - apply Hr. reflexivity.
  - apply Hret. vm_compute. reflexivity.
Defined.

(** * Further properties of the engine *)

Lemma state_ext (s s' : GameState) :
  hour s = hour s' -> totals s = totals s' ->
  (forall d, dept_of s d = dept_of s' d) -> s = s'.
Proof.
  destruct s as [h [e1 e2 e3 e4] t], s' as [h' [f1 f2 f3 f4] t'].
  cbn [hour totals]. intros -> -> Hd.
  pose proof (Hd ED). pose proof (Hd SD). pose proof (Hd CC). pose proof (Hd SU).
  cbn in *. congruence.
Qed.

(** ** Request aging *)

(** X1.  [_roll_request_age] empties every [req_waiting_new], keeps
    the number of waiting requests of every department, touches nothing
    else, and rolling twice is rolling once. *)
Theorem roll_request_age_idempotent st :
  _roll_request_age (_roll_request_age st) = _roll_request_age st /\
  (forall d,
     req_waiting_new (dept_of (_roll_request_age st) d) = 0 /\
     req_waiting_mature (dept_of (_roll_request_age st) d)
       = req_waiting_mature (dept_of st d) + req_waiting_new (dept_of st d) /\
     with_req_waiting_new
       (with_req_waiting_mature (dept_of (_roll_request_age st) d) 0) 0
       = with_req_waiting_new (with_req_waiting_mature (dept_of st d) 0) 0) /\
  hour (_roll_request_age st) = hour st /\
  totals (_roll_request_age st) = totals st.
Proof.
  split; [|split; [|split]]; try reflexivity.
  - apply state_ext.
    + reflexivity.
    + reflexivity.
    + intros d. destruct (roll_fields (_roll_request_age st)) as (_ & _ & Hr2).
      destruct (roll_fields st) as (_ & _ & Hr).
      rewrite Hr2, Hr.
      cbn [with_req_waiting_new with_req_waiting_mature patients staff ext_waiting
           ed_walkin_waiting ed_ambulance_waiting req_waiting_mature req_waiting_new].
      now rewrite Z.add_0_r.
  - intros d. destruct (roll_fields st) as (_ & _ & Hr). rewrite Hr.
    destruct (dept_of st d). repeat split.
Qed.

(** ** The transition before the solve *)

(** X2.  Steps 1 to 3 never add a patient and remove at most the
    ready-to-exit count of a department, none for a negative count;
    they leave staff non-negative; the arrival queues only grow, and a
    negative arrival count adds nothing. *)
Theorem pre_solve_bounds st hi d :
  let s := fst (pre_solve st hi) in
  patients (dept_of s d) <= Z.max (patients (dept_of st d)) 0 /\
  (0 <= patients (dept_of st d) ->
   0 <= patients (dept_of s d) <= patients (dept_of st d) /\
   patients (dept_of st d) - patients (dept_of s d)
     <= _clamp_non_negative (get0 (ready_to_exit hi) (dept_key d))) /\
  (get0 (ready_to_exit hi) (dept_key d) <= 0 -> 0 <= patients (dept_of st d) ->
   patients (dept_of s d) = patients (dept_of st d)) /\
  0 <= staff (dept_of s d) /\
  ext_waiting (dept_of st d) <= ext_waiting (dept_of s d) /\
  ed_walkin_waiting (dept_of st d) <= ed_walkin_waiting (dept_of s d) /\
  ed_ambulance_waiting (dept_of st d) <= ed_ambulance_waiting (dept_of s d) /\
  (ed_walkin_arrivals hi <= 0 ->
   ed_walkin_waiting (dept_of s d) = ed_walkin_waiting (dept_of st d)) /\
  ext_waiting (dept_of s ED) = ext_waiting (dept_of st ED).
Proof.
  cbv zeta. destruct (pre_solve_fields st hi) as (_ & _ & Hx).
  destruct (Hx d) as (Hp & Hs & He & Hw & Ha & _ & _).
  destruct (Hx ED) as (_ & _ & He0 & _).
  rewrite Hp, Hs, He, Hw, Ha, He0. unfold _clamp_non_negative.
  destruct d; cbn [dept_eqb]; repeat split; lia.
Qed.

Lemma pre_solve_bounds_witness :
  patients (dept_of (fst (pre_solve GameState_default two_transfers)) ED) = 14 /\
  0 <= patients (dept_of (fst (pre_solve GameState_default two_transfers)) ED)
    <= patients (dept_of GameState_default ED).
Proof.
  split; [vm_compute; reflexivity|].
  apply (pre_solve_bounds GameState_default two_transfers ED).
  vm_compute. discriminate.
Defined.

(** ** What a returning call reports *)

Lemma commit_outcome prob x s dis :
  snd (commit prob x s dis) =
    Returned (solved_decisions (rounded x))
      (mkInfo (financial_cost (totals (fst (commit prob x s dis))))
              (quality_penalty (totals (fst (commit prob x s dis))))
              (admitted_total_of (rounded x))
              (sumZ (pd_values dis))
              (objective_at prob x)).
Proof.
  unfold commit, admitted_total_of. cbv zeta. generalize (rounded x). intros v.
  destruct s as [h [e sd c u] t].
  cbn [DEPARTMENTS fold_left apply_one dept_eqb dept_of set_dept pd_get pd_set pd_init
       depts hour totals at_ED at_SD at_CC at_SU fst snd].
  reflexivity.
Qed.

Lemma returned_is_commit solve st hi qw fr s' decisions info :
  optimize_hour solve st hi qw fr = (s', Returned decisions info) ->
  lp_status (solve (hour_problem st hi qw fr)) = LpStatusOptimal /\
  (s', Returned decisions info) =
    commit (hour_problem st hi qw fr) (lp_values (solve (hour_problem st hi qw fr)))
      (fst (pre_solve st hi)) (snd (pre_solve st hi)).
Proof.
  intros Hr.
  destruct (LpStatus_optimal_dec (lp_status (solve (hour_problem st hi qw fr))))
    as [Hs | Hs].
  - split; [exact Hs|]. now rewrite <- Hr, (optimize_hour_optimal _ _ _ _ _ Hs).
  - rewrite (optimize_hour_failed _ _ _ _ _ Hs) in Hr. discriminate.
Qed.

(** X3.  The hour counter counts the returning calls: a call that
    returns adds one, and a sequence of returning calls adds its
    length. *)
Theorem hour_counts_returning_calls solve calls st st' :
  play solve st calls = Some st' ->
  hour st' = hour st + Z.of_nat (length calls).
Proof.
  revert st. induction calls as [|c rest IH]; intros st Hplay; cbn [play] in Hplay.
  - inversion Hplay. cbn [length]. lia.
  - destruct (optimize_hour solve st (call_input c) (call_quality_weight c)
                (call_flow_reward c)) as [s1 [h e | decs info]] eqn:Ecall;
      [discriminate|].
    apply returned_is_commit in Ecall. destruct Ecall as [_ Ecall].
    apply (f_equal fst) in Ecall. cbn [fst] in Ecall.
    rewrite (IH _ Hplay), Ecall.
    destruct (commit_fields
                (hour_problem st (call_input c) (call_quality_weight c)
                   (call_flow_reward c))
                (lp_values
                   (solve (hour_problem st (call_input c) (call_quality_weight c)
                             (call_flow_reward c))))
                (fst (pre_solve st (call_input c))) (snd (pre_solve st (call_input c))))
      as (Hh & _).
    rewrite Hh. destruct (pre_solve_fields st (call_input c)) as (-> & _).
    cbn [length]. lia.
Qed.

Lemma hour_counts_returning_calls_witness :
  option_map hour (play idle_solver GameState_default two_hours) = Some 3.
Proof.
  destruct (play idle_solver GameState_default two_hours) as [st'|] eqn:Hplay.
  - cbn [option_map]. f_equal.
    exact (hour_counts_returning_calls idle_solver two_hours GameState_default st' Hplay).
  - vm_compute in Hplay. discriminate.
Defined.

(** The patients that left in steps 1 to 3 are the discharged plus the
    transfer requests created. *)
Lemma pre_solve_departed st hi :
  sumZ (pd_values (snd (pre_solve st hi)))
  + sumZ (map (requests_created st hi) DEPARTMENTS)
  = total_patients st - total_patients (fst (pre_solve st hi)).
Proof.
  pose proof (pre_solve_fields st hi) as (_ & _ & Hx).
  unfold requests_created, total_patients.
  unfold pre_solve in *.
  destruct (roll_fields st) as (_ & _ & Hr).
  pose proof (departures_fields (_roll_request_age st) hi) as (_ & _ & Hd & Hsum).
  destruct (_apply_departures_and_requests (_roll_request_age st) hi) as [s1 dis].
  cbn [fst snd] in *.
  unfold total_new, sumZ, actual_departures in *.
  cbn [DEPARTMENTS map fold_left] in *.
  pose proof (Hx ED) as (Hp1 & _). pose proof (Hx SD) as (Hp2 & _).
  pose proof (Hx CC) as (Hp3 & _). pose proof (Hx SU) as (Hp4 & _).
  rewrite Hp1, Hp2, Hp3, Hp4.
  rewrite !Hr in Hsum. rewrite !Hr.
  cbn [with_req_waiting_new with_req_waiting_mature patients req_waiting_new] in *.
  lia.
Qed.

Lemma Returned_inj d i d' i' :
  Returned d i = Returned d' i' -> d = d' /\ i = i'.
Proof.
  intros H. split.
  - exact (f_equal (fun o => match o with Returned x _ => x | Raised _ _ => d end) H).
  - exact (f_equal (fun o => match o with Returned _ y => y | Raised _ _ => i end) H).
Qed.

(** X4.  A call that returns moves patients and loses none: the
    patients in the rooms afterwards are those before, minus the
    discharged and the transfer requests created, plus the admitted; the
    two counts it reports are the increments of the cumulative totals,
    and the two cost figures are those of the returned state. *)
Theorem returning_call_conserves_patients solve st hi qw fr s' decisions info :
  optimize_hour solve st hi qw fr = (s', Returned decisions info) ->
  total_patients s' =
    total_patients st - discharged_out_this_hour info
    - sumZ (map (requests_created st hi) DEPARTMENTS) + admitted_this_hour info /\
  admitted_this_hour info =
    sumZ (map (fun r => admit_external r + admit_requests r) (pd_values decisions)) /\
  throughput_admitted (totals s')
    = throughput_admitted (totals st) + admitted_this_hour info /\
  discharged_out (totals s')
    = discharged_out (totals st) + discharged_out_this_hour info /\
  financial_total info = financial_cost (totals s') /\
  quality_total info = quality_penalty (totals s').
Proof.
  intros Hret. apply returned_is_commit in Hret. destruct Hret as [_ Hret].
  pose proof (f_equal fst Hret) as Hs'. pose proof (f_equal snd Hret) as Ho.
  cbn [fst snd] in Hs', Ho. rewrite commit_outcome in Ho.
  apply Returned_inj in Ho. destruct Ho as [Hdec Hinfo]. subst decisions info.
  cbn [financial_total quality_total admitted_this_hour discharged_out_this_hour].
  subst s'.
  pose proof (pre_solve_departed st hi) as Hdep.
  destruct (commit_fields (hour_problem st hi qw fr)
              (lp_values (solve (hour_problem st hi qw fr)))
              (fst (pre_solve st hi)) (snd (pre_solve st hi))) as (_ & Hd & Ht).
  destruct (pre_solve_fields st hi) as (_ & Ht0 & _).
  refine (conj _ (conj _ (conj _ (conj _ (conj _ _))))); try reflexivity.
  - unfold total_patients, pd_values, sumZ in *. cbn [DEPARTMENTS map fold_left] in *.
    rewrite !Hd. cbn [patients dept_eqb].
    unfold admitted_total_of, solved_decisions, pd_init, pd_values, sumZ.
    cbn [map fold_left dept_eqb admit_external admit_requests at_ED at_SD at_CC at_SU].
    lia.
  - rewrite Ht, Ht0. cbn [throughput_admitted].
    unfold admitted_total_of, solved_decisions, pd_init, pd_values, sumZ.
    cbn [map fold_left dept_eqb admit_external admit_requests at_ED at_SD at_CC at_SU].
    lia.
  - rewrite Ht, Ht0. reflexivity.
Qed.

Lemma returning_call_conserves_patients_witness :
  exists s' decisions info,
    optimize_hour idle_solver GameState_default two_transfers 1 300
      = (s', Returned decisions info) /\
    total_patients s' =
      total_patients GameState_default - discharged_out_this_hour info
      - sumZ (map (requests_created GameState_default two_transfers) DEPARTMENTS)
      + admitted_this_hour info.
Proof.
  destruct (optimize_hour idle_solver GameState_default two_transfers 1 300)
    as [s' [h e | decisions info]] eqn:Ecall.
  - vm_compute in Ecall. discriminate.
  - exists s', decisions, info. split; [reflexivity|].
    apply (returning_call_conserves_patients idle_solver GameState_default
             two_transfers 1 300 s' decisions info Ecall).
Defined.

(** X5.  The decision records of a returning call account for every
    change of a queue: external arrivals wait or are admitted, transfer
    requests (old and newly created) wait or are admitted, staff is the
    shocked staff plus the extra staff called; Emergency's record counts
    walk-ins and ambulances as its external admissions and Emergency's
    own [ext_waiting] is never touched. *)
Theorem decisions_account_for_queues solve st hi qw fr s' decisions info :
  optimize_hour solve st hi qw fr = (s', Returned decisions info) ->
  (forall d,
     ext_waiting (dept_of s' d) =
       (if dept_eqb d ED then ext_waiting (dept_of st d)
        else ext_waiting (dept_of st d)
             + _clamp_non_negative (get0 (external_arrivals hi) (dept_key d))
             - admit_external (pd_get decisions d)) /\
     req_waiting_mature (dept_of s' d) + req_waiting_new (dept_of s' d) =
       req_waiting_mature (dept_of st d) + req_waiting_new (dept_of st d)
       + requests_created st hi d - admit_requests (pd_get decisions d) /\
     staff (dept_of s' d) =
       _clamp_non_negative (staff (dept_of st d) + get0 (staff_delta hi) (dept_key d))
       + call_extra_staff (pd_get decisions d) /\
     patients (dept_of s' d) =
       patients (dept_of st d)
       - Z.min (_clamp_non_negative (get0 (ready_to_exit hi) (dept_key d)))
               (patients (dept_of st d))
       + admit_external (pd_get decisions d) + admit_requests (pd_get decisions d)) /\
  (exists w a dv,
     admit_walkins (pd_get decisions ED) = Some w /\
     admit_ambulance (pd_get decisions ED) = Some a /\
     divert_ambulances (pd_get decisions ED) = Some dv /\
     admit_external (pd_get decisions ED) = w + a /\
     ed_walkin_waiting (dept_of s' ED) =
       ed_walkin_waiting (dept_of st ED)
       + _clamp_non_negative (ed_walkin_arrivals hi) - w /\
     ed_ambulance_waiting (dept_of s' ED) =
       Z.max 0 (ed_ambulance_waiting (dept_of st ED)
                + _clamp_non_negative (ed_ambulance_arrivals hi) - a - dv)) /\
  (forall d, d <> ED ->
     admit_walkins (pd_get decisions d) = None /\
     admit_ambulance (pd_get decisions d) = None /\
     divert_ambulances (pd_get decisions d) = None).
Proof.
  intros Hret. apply returned_is_commit in Hret. destruct Hret as [_ Hret].
  pose proof (f_equal fst Hret) as Hs'. pose proof (f_equal snd Hret) as Ho.
  cbn [fst snd] in Hs', Ho. rewrite commit_outcome in Ho.
  apply Returned_inj in Ho. destruct Ho as [Hdec _]. subst decisions s'.
  destruct (commit_fields (hour_problem st hi qw fr)
              (lp_values (solve (hour_problem st hi qw fr)))
              (fst (pre_solve st hi)) (snd (pre_solve st hi))) as (_ & Hd & _).
  destruct (pre_solve_fields st hi) as (_ & _ & Hx).
  refine (conj _ (conj _ _)).
  - intros d. rewrite Hd.
    cbn [patients staff ext_waiting req_waiting_mature req_waiting_new].
    rewrite (pre_solve_new st hi d).
    destruct (Hx d) as (-> & -> & -> & _ & _ & -> & _).
    destruct d; cbn [dept_eqb solved_decisions pd_init pd_get at_ED at_SD at_CC at_SU
                     admit_external admit_requests call_extra_staff];
      repeat split; lia.
  - do 3 eexists.
    cbn [solved_decisions pd_init pd_get at_ED dept_eqb admit_walkins admit_ambulance
         divert_ambulances admit_external].
    rewrite Hd. cbn [ed_walkin_waiting ed_ambulance_waiting dept_eqb].
    destruct (Hx ED) as (_ & _ & _ & -> & -> & _ & _). cbn [dept_eqb].
    repeat split; try reflexivity; f_equal; lia.
  - intros d Hne. destruct d; [congruence| | |]; repeat split.
Qed.

Lemma decisions_account_for_queues_witness :
  exists s' decisions info,
    optimize_hour diverting_solver GameState_default two_ambulances 1 300
      = (s', Returned decisions info) /\
    admit_external (pd_get decisions ED) = 1 /\
    divert_ambulances (pd_get decisions ED) = Some 1 /\
    ed_walkin_waiting (dept_of s' ED) = 1 /\
    ed_ambulance_waiting (dept_of s' ED) = 0.
Proof.
  destruct (optimize_hour diverting_solver GameState_default two_ambulances 1 300)
    as [s' [h e | decisions info]] eqn:Ecall.
  - vm_compute in Ecall. discriminate.
  - exists s', decisions, info. split; [reflexivity|].
    destruct (decisions_account_for_queues diverting_solver GameState_default
                two_ambulances 1 300 s' decisions info Ecall)
      as (_ & (w & a & dv & Hw & Ha & Hdv & Hext & Hqw & Hqa) & _).
    rewrite Hext, Hdv, Hqw, Hqa.
    apply (f_equal snd) in Ecall. cbn [snd] in Ecall.
    vm_compute in Ecall. apply Returned_inj in Ecall. destruct Ecall as [Edec _].
    subst decisions. cbn in Hw, Ha, Hdv.
    inversion Hw; inversion Ha; inversion Hdv; subst w a dv.
    vm_compute. repeat split.
Defined.

(** ** When the hour's program can be solved *)

Lemma build_problem_feasible_iff s qw fr :
  (exists a, feasible (build_problem s qw fr) a) <->
  (forall d,
     patients (dept_of s d) <= TOTAL_ROOMS d /\
     0 <= req_waiting_mature (dept_of s d) /\
     (if dept_eqb d ED
      then 0 <= ed_walkin_waiting (dept_of s d) /\
           0 <= ed_ambulance_waiting (dept_of s d)
      else 0 <= ext_waiting (dept_of s d))).
Proof.
  split.
  - intros (a & Ha). by_dept_in Ha.
    intros d; destruct d; cbn [dept_eqb TOTAL_ROOMS]; repeat split; lia.
  - intros H. exists (staffing_point s).
    pose proof (H ED) as (? & ? & ? & ?). pose proof (H SD) as (? & ? & ?).
    pose proof (H CC) as (? & ? & ?). pose proof (H SU) as (? & ? & ?).
    cbn [dept_eqb TOTAL_ROOMS] in *.
    apply feasible_by_dept. unfold ed_ok, dept_ok, staffing_point.
    cbn [dept_eqb eval patients_end TOTAL_ROOMS].
    repeat split; lia.
Qed.

(** X6.  The program built from a state has a feasible point exactly
    when no department holds more patients than it has rooms and none
    of the queues the program bounds admissions by is negative; staff
    never makes it infeasible, because extra staff is unbounded. *)
Theorem program_feasible_iff s qw fr :
  (exists a, feasible (build_problem s qw fr) a) <->
  (forall d,
     patients (dept_of s d) <= TOTAL_ROOMS d /\
     0 <= req_waiting_mature (dept_of s d) /\
     (if dept_eqb d ED
      then 0 <= ed_walkin_waiting (dept_of s d) /\
           0 <= ed_ambulance_waiting (dept_of s d)
      else 0 <= ext_waiting (dept_of s d))).
Proof. apply build_problem_feasible_iff. Qed.

Lemma pre_solve_well_formed st hi :
  well_formed st -> well_formed (fst (pre_solve st hi)).
Proof.
  intros [Hp Hq]. destruct (pre_solve_fields st hi) as (_ & _ & Hx).
  split.
  - intros d. destruct (Hx d) as (-> & _). specialize (Hp d).
    unfold _clamp_non_negative. lia.
  - intros d. destruct (Hx d) as (_ & -> & -> & -> & -> & -> & Hn).
    destruct (Hq d) as (? & ? & ? & ? & ? & ?).
    unfold _clamp_non_negative. destruct d; cbn [dept_eqb]; repeat split; lia.
Qed.

(** X7.  From a well-formed state the hour's program always has a
    feasible point, whatever the input and the weights; a successful
    call ends in a well-formed state; so every state a sound solver
    reaches from the initial state by returning calls is well-formed. *)
Theorem well_formed_states_are_kept solve st hi qw fr :
  well_formed st ->
  (exists a, feasible (hour_problem st hi qw fr) a) /\
  (lp_status (solve (hour_problem st hi qw fr)) = LpStatusOptimal ->
   feasible (hour_problem st hi qw fr)
     (rounded (lp_values (solve (hour_problem st hi qw fr)))) ->
   well_formed (fst (optimize_hour solve st hi qw fr))) /\
  (sound_solver solve ->
   forall calls st',
     play solve GameState_default calls = Some st' -> well_formed st').
Proof.
  intros Hwf.
  assert (Hfeas : forall s h q f,
            well_formed s -> exists a, feasible (hour_problem s h q f) a).
  { intros s h q f Hs. apply (pre_solve_well_formed s h) in Hs.
    unfold hour_problem. apply build_problem_feasible_iff.
    destruct Hs as [Hp Hq]. intros d. specialize (Hp d).
    destruct (Hq d) as (? & ? & ? & ? & ? & ?).
    destruct d; cbn [dept_eqb]; repeat split; lia. }
  assert (Hstep : forall s h q f,
            well_formed s ->
            lp_status (solve (hour_problem s h q f)) = LpStatusOptimal ->
            feasible (hour_problem s h q f)
              (rounded (lp_values (solve (hour_problem s h q f)))) ->
            well_formed (fst (optimize_hour solve s h q f))).
  { intros s h q f Hs Hopt Hf.
    apply (pre_solve_well_formed s h) in Hs. destruct Hs as [Hp Hq].
    rewrite (optimize_hour_optimal _ _ _ _ _ Hopt).
    destruct (commit_fields (hour_problem s h q f)
                (lp_values (solve (hour_problem s h q f)))
                (fst (pre_solve s h)) (snd (pre_solve s h))) as (_ & Hd & _).
    by_dept_in Hf.
    split; intros d; rewrite Hd;
      cbn [patients staff ext_waiting ed_walkin_waiting ed_ambulance_waiting
           req_waiting_mature req_waiting_new];
      specialize (Hp d); destruct (Hq d) as (? & ? & ? & ? & ? & ?);
      destruct d; cbn [dept_eqb TOTAL_ROOMS] in *; repeat split; lia. }
  split; [now apply Hfeas|]. split; [now apply Hstep|].
  intros Hsound calls.
  assert (Hgen : forall s s', well_formed s -> play solve s calls = Some s' ->
                              well_formed s').
  { induction calls as [|c rest IH]; intros s s' Hs Hplay; cbn [play] in Hplay.
    - now inversion Hplay; subst.
    - destruct (LpStatus_optimal_dec
                  (lp_status (solve (hour_problem s (call_input c)
                                       (call_quality_weight c) (call_flow_reward c)))))
        as [Hopt | Hopt].
      + pose proof (Hstep _ _ _ _ Hs Hopt (Hsound _ Hopt)) as Hs1.
        destruct (optimize_hour solve s (call_input c) (call_quality_weight c)
                    (call_flow_reward c)) as [s1 [h e | decs info]];
          [discriminate|]. cbn [fst] in Hs1. now apply (IH s1 s').
      + rewrite (optimize_hour_failed _ _ _ _ _ Hopt) in Hplay. discriminate. }
  intros st'. apply Hgen.
  split.
  - intros d; destruct d; cbn; lia.
  - intros d; destruct d; cbn; repeat split; lia.
Qed.

Lemma well_formed_states_are_kept_witness :
  well_formed GameState_default /\
  (exists a, feasible (hour_problem GameState_default three_walkins 1 300) a) /\
  forall st', play idle_solver GameState_default two_hours = Some st' -> well_formed st'.
Proof.
  assert (Hwf : well_formed GameState_default).
  { split.
    - intros d; destruct d; cbn; lia.
    - intros d; destruct d; cbn; repeat split; lia. }
  destruct (well_formed_states_are_kept idle_solver GameState_default three_walkins
              1 300 Hwf) as (Hfeas & _ & Hplay).
  split; [exact Hwf|]. split; [exact Hfeas|].
  intros st'. apply Hplay. exact idle_solver_sound.
Defined.

(** ** What the optimum looks like *)

Lemma objective_parts s qw fr (a : Var -> Z) :
  (objective (build_problem s qw fr) a
   == inject_Z (eval a (financial_expr s))
      + qw * inject_Z (eval a (quality_expr s))
      - fr * inject_Z (eval a throughput_expr))%Q.
Proof.
  unfold objective, objective_at.
  cbn [build_problem lp_financial lp_quality lp_throughput lp_quality_weight
       lp_flow_reward].
  rewrite !evalQ_inject. reflexivity.
Qed.

Ltac expand_parts :=
  cbn [financial_expr quality_expr throughput_expr lpSum ed_waiting_end ext_wait_end
       ed_walkin_wait_end ed_ambulance_wait_end req_wait_end fold_left map DEPARTMENTS
       eval FINANCIAL QUALITY];
  unfold upd; cbn [var_eqb dept_eqb].

Lemma diversion_is_never_optimal s qw fr a :
  (0 <= qw)%Q ->
  optimal (build_problem s qw fr) a ->
  a divert_ed = 0.
Proof.
  intros Hqw [Hf Hmin].
  specialize (Hmin (upd a divert_ed (a divert_ed - 1))).
  by_dept_in Hf.
  destruct (Z.eq_dec (a divert_ed) 0) as [|Hne]; [assumption|exfalso].
  assert (Hb : feasible (build_problem s qw fr) (upd a divert_ed (a divert_ed - 1)))
    by by_dept_goal.
  apply Hmin in Hb. rewrite !objective_parts in Hb.
  assert (Hfin : eval (upd a divert_ed (a divert_ed - 1)) (financial_expr s)
                 = eval a (financial_expr s) + -4850) by (expand_parts; lia).
  assert (Hqual : eval (upd a divert_ed (a divert_ed - 1)) (quality_expr s)
                  = eval a (quality_expr s) + -180) by (expand_parts; lia).
  assert (Hthr : eval (upd a divert_ed (a divert_ed - 1)) throughput_expr
                 = eval a throughput_expr) by (expand_parts; lia).
  rewrite Hfin, Hqual, Hthr, !inject_Z_plus in Hb.
  change (inject_Z (-4850)) with (-4850 # 1)%Q in Hb.
  change (inject_Z (-180)) with (-180 # 1)%Q in Hb.
  set (F := inject_Z (eval a (financial_expr s))) in *.
  set (U := inject_Z (eval a (quality_expr s))) in *.
  set (T := inject_Z (eval a throughput_expr)) in *.
  clearbody F U T. nra.
Qed.

(** X8.  With a quality weight that is not negative, and any flow
    reward, no optimal solution of the hour's program diverts an
    ambulance: a diverted ambulance costs 5000 + 200 w, one left waiting
    150 + 20 w, and nothing in the program forces a diversion. *)
Theorem optimum_never_diverts s qw fr a :
  (0 <= qw)%Q ->
  optimal (build_problem s qw fr) a ->
  a divert_ed = 0.
Proof. apply diversion_is_never_optimal. Qed.

Lemma optimum_never_diverts_witness : scenario_C_solution divert_ed = 0.
Proof.
  apply (optimum_never_diverts scenario_C_state 1 300 scenario_C_solution).
  - discriminate.
  - exact scenario_C_solution_optimal.
Defined.

Ltac use_better H :=
  match type of H with
  | feasible ?p ?b -> _ =>
      let Hb := fresh "Hb" in
      assert (Hb : feasible p b) by by_dept_goal;
      apply H in Hb; compare_costs Hb; lia
  end.

(** X9.  Under the default weights every optimal solution fills each
    department up to its rooms or until nobody is waiting for it, calls
    exactly the staff this takes beyond the present staff, and outside
    Emergency serves external arrivals before transfer requests. *)
Theorem optimum_fills_every_department s a :
  optimal (build_problem s 1 300) a ->
  forall d,
    eval a (patients_end s d) =
      Z.min (TOTAL_ROOMS d)
            (patients (dept_of s d)
             + (if dept_eqb d ED
                then ed_walkin_waiting (dept_of s d) + ed_ambulance_waiting (dept_of s d)
                else ext_waiting (dept_of s d))
             + req_waiting_mature (dept_of s d)) /\
    a (extra_staff d) = Z.max 0 (eval a (patients_end s d) - staff (dept_of s d)) /\
    (if dept_eqb d ED then a (admit_ext d) = 0
     else a (admit_ext d) =
            Z.min (ext_waiting (dept_of s d)) (TOTAL_ROOMS d - patients (dept_of s d))).
Proof.
  intros Hopt d.
  pose proof (diversion_is_never_optimal s 1 300 a ltac:(discriminate) Hopt) as Hdiv.
  pose proof (optimum_calls_missing_staff s a d Hopt) as Hstaff.
  split; [|split; [exact Hstaff|]].
  - pose proof (no_better_point s a
      (upd (upd a (admit_ext d) (a (admit_ext d) + 1))
           (extra_staff d) (a (extra_staff d) + 1)) Hopt) as Hext.
    pose proof (no_better_point s a
      (upd (upd a (admit_req d) (a (admit_req d) + 1))
           (extra_staff d) (a (extra_staff d) + 1)) Hopt) as Hreq.
    pose proof (no_better_point s a
      (upd (upd a admit_ed_walkin (a admit_ed_walkin + 1))
           (extra_staff ED) (a (extra_staff ED) + 1)) Hopt) as Hwalk.
    pose proof (no_better_point s a
      (upd (upd a admit_ed_ambulance (a admit_ed_ambulance + 1))
           (extra_staff ED) (a (extra_staff ED) + 1)) Hopt) as Hamb.
    destruct Hopt as [Hf _]. by_dept_in Hf.
    match goal with
    | |- ?x = ?y => destruct (Z.eq_dec x y) as [|Hne]; [assumption|exfalso]
    end.
    destruct d; cbn [dept_eqb eval patients_end TOTAL_ROOMS] in *.
    + destruct (Z_lt_le_dec (a admit_ed_walkin) (ed_walkin_waiting (dept_of s ED)));
        [clear Hext Hreq Hamb; use_better Hwalk|].
      destruct (Z_lt_le_dec (a admit_ed_ambulance)
                  (ed_ambulance_waiting (dept_of s ED)));
        [clear Hext Hreq Hwalk; use_better Hamb|].
      clear Hext Hwalk Hamb; use_better Hreq.
    + destruct (Z_lt_le_dec (a (admit_ext SD)) (ext_waiting (dept_of s SD)));
        [clear Hreq Hwalk Hamb; use_better Hext | clear Hext Hwalk Hamb; use_better Hreq].
    + destruct (Z_lt_le_dec (a (admit_ext CC)) (ext_waiting (dept_of s CC)));
        [clear Hreq Hwalk Hamb; use_better Hext | clear Hext Hwalk Hamb; use_better Hreq].
    + destruct (Z_lt_le_dec (a (admit_ext SU)) (ext_waiting (dept_of s SU)));
        [clear Hreq Hwalk Hamb; use_better Hext | clear Hext Hwalk Hamb; use_better Hreq].
  - destruct d; cbn [dept_eqb].
    + destruct Hopt as [Hf _]. by_dept_in Hf. assumption.
    + apply (optimum_fills_rooms s a SD); [discriminate | exact Hopt].
    + apply (optimum_fills_rooms s a CC); [discriminate | exact Hopt].
    + apply (optimum_fills_rooms s a SU); [discriminate | exact Hopt].
Qed.

Lemma optimum_fills_every_department_witness :
  eval scenario_C_solution (patients_end scenario_C_state SD) = 30 /\
  scenario_C_solution (extra_staff SD) = 6.
Proof.
  destruct (optimum_fills_every_department scenario_C_state scenario_C_solution
              scenario_C_solution_optimal SD) as (Hfill & Hstaff & _).
  split.
  - rewrite Hfill. vm_compute. reflexivity.
  - reflexivity.
Defined.

(** ** Weights and retries *)

Lemma one_more_staff_pays_below_minus_8 s qw fr a :
  (qw < -8)%Q ->
  feasible (build_problem s qw fr) a ->
  feasible (build_problem s qw fr) (upd a (extra_staff ED) (a (extra_staff ED) + 1)) /\
  (objective (build_problem s qw fr) (upd a (extra_staff ED) (a (extra_staff ED) + 1))
   < objective (build_problem s qw fr) a)%Q /\
  ~ optimal (build_problem s qw fr) a.
Proof.
  intros Hqw Hf.
  assert (Hb : feasible (build_problem s qw fr)
                 (upd a (extra_staff ED) (a (extra_staff ED) + 1))).
  { by_dept_in Hf. by_dept_goal. }
  assert (Hlt : (objective (build_problem s qw fr)
                   (upd a (extra_staff ED) (a (extra_staff ED) + 1))
                 < objective (build_problem s qw fr) a)%Q).
  { rewrite !objective_parts.
    assert (Hfin : eval (upd a (extra_staff ED) (a (extra_staff ED) + 1))
                     (financial_expr s)
                   = eval a (financial_expr s) + 40) by (expand_parts; lia).
    assert (Hqual : eval (upd a (extra_staff ED) (a (extra_staff ED) + 1))
                      (quality_expr s)
                    = eval a (quality_expr s) + 5) by (expand_parts; lia).
    assert (Hthr : eval (upd a (extra_staff ED) (a (extra_staff ED) + 1))
                     throughput_expr
                   = eval a throughput_expr) by (expand_parts; lia).
    rewrite Hfin, Hqual, Hthr, !inject_Z_plus.
    change (inject_Z 40) with 40%Q. change (inject_Z 5) with 5%Q.
    set (F := inject_Z (eval a (financial_expr s))).
    set (U := inject_Z (eval a (quality_expr s))).
    set (T := inject_Z (eval a throughput_expr)).
    clearbody F U T. nra. }
  split; [exact Hb|]. split; [exact Hlt|].
  intros [_ Hmin]. specialize (Hmin _ Hb).
  apply (Qlt_irrefl (objective (build_problem s qw fr) a)).
  eapply Qle_lt_trans; eassumption.
Qed.

(** X10.  With a quality weight below -8 an extra staff member has a
    negative price (40 + 5 w), so no point of the hour's program is
    optimal: every feasible point is beaten by the one that calls one
    more staff for Emergency.  A call with such a weight cannot return a
    true optimum. *)
Theorem negative_quality_weight_is_unbounded s qw fr a :
  (qw < -8)%Q ->
  feasible (build_problem s qw fr) a ->
  feasible (build_problem s qw fr) (upd a (extra_staff ED) (a (extra_staff ED) + 1)) /\
  (objective (build_problem s qw fr) (upd a (extra_staff ED) (a (extra_staff ED) + 1))
   < objective (build_problem s qw fr) a)%Q /\
  ~ optimal (build_problem s qw fr) a.
Proof. apply one_more_staff_pays_below_minus_8. Qed.

Lemma negative_quality_weight_is_unbounded_witness :
  ~ optimal (build_problem GameState_default (-9) 300) idle_point.
Proof.
  apply (negative_quality_weight_is_unbounded GameState_default (-9) 300 idle_point).
  - reflexivity.
  - vm_compute. reflexivity.
Defined.

(** X11.  A call that raises is not rolled back, so the next call
    starts from the transitioned state: the hour is the same, the
    requests the failed call created are admissible in the next call,
    and running the same input again takes its departures a second
    time. *)
Theorem failed_call_is_not_rolled_back solve st hi qw fr :
  lp_status (solve (hour_problem st hi qw fr)) <> LpStatusOptimal ->
  let s1 := fst (optimize_hour solve st hi qw fr) in
  hour s1 = hour st /\
  (forall d hi2 qw2 fr2,
     req_admit_bound (hour_problem s1 hi2 qw2 fr2) d =
       Some (req_waiting_mature (dept_of st d) + req_waiting_new (dept_of st d)
             + requests_created st hi d)) /\
  (forall d,
     let ready := _clamp_non_negative (get0 (ready_to_exit hi) (dept_key d)) in
     let left1 := patients (dept_of st d) - Z.min ready (patients (dept_of st d)) in
     patients (dept_of s1 d) = left1 /\
     patients (dept_of (fst (pre_solve s1 hi)) d) = left1 - Z.min ready left1).
Proof.
  intros Hs. cbv zeta. rewrite (optimize_hour_failed _ _ _ _ _ Hs). cbn [fst].
  destruct (pre_solve_fields st hi) as (Hh & _ & Hx).
  split; [exact Hh|]. split.
  - intros d hi2 qw2 fr2. unfold hour_problem. rewrite req_admit_bound_build.
    destruct (pre_solve_fields (fst (pre_solve st hi)) hi2) as (_ & _ & Hx2).
    destruct (Hx2 d) as (_ & _ & _ & _ & _ & -> & _).
    destruct (Hx d) as (_ & _ & _ & _ & _ & -> & _).
    now rewrite pre_solve_new.
  - intros d.
    destruct (pre_solve_fields (fst (pre_solve st hi)) hi) as (_ & _ & Hx2).
    destruct (Hx2 d) as (-> & _). destruct (Hx d) as (-> & _). split; reflexivity.
Qed.

Lemma failed_call_is_not_rolled_back_witness :
  hour (fst (optimize_hour refusing_solver GameState_default two_transfers 1 300)) = 1 /\
  req_admit_bound
    (hour_problem (fst (optimize_hour refusing_solver GameState_default two_transfers
                          1 300)) no_input 1 300) SD = Some 2 /\
  patients
    (dept_of
       (fst (pre_solve
               (fst (optimize_hour refusing_solver GameState_default two_transfers 1 300))
               two_transfers)) ED) = 12.
Proof.
  destruct (failed_call_is_not_rolled_back refusing_solver GameState_default
              two_transfers 1 300) as (Hh & Hb & Hp).
  - simpl. discriminate.
  - split; [exact Hh|]. split.
    + rewrite Hb. vm_compute. reflexivity.
    + destruct (Hp ED) as [_ Hp2]. rewrite Hp2. vm_compute. reflexivity.
Defined.

(** ** The input form and the core together *)

Lemma key_map_reads (g : Dept -> Z) d :
  get0 (key_map g DEPARTMENTS) (dept_key d) = g d.
Proof.
  unfold get0, key_map. cbn [DEPARTMENTS fold_left].
  destruct d; cbn [dept_key]; simplify_map_eq; reflexivity.
Qed.

(** The destination entries the form records for department [d']. *)
Lemma collect_one_dests f e m d d' k :
  In k (targets d') ->
  snd (collect_one f (e, m) d) !! (dept_key d', k) =
    if dept_eqb d d' && (0 <? f_ready f d) then Some (f_split f d k)
    else m !! (dept_key d', k).
Proof.
  intros Hk. unfold collect_one.
  destruct (0 <? f_ready f d); [|now rewrite andb_false_r].
  rewrite andb_true_r. cbn [snd].
  destruct d, d'; cbn [dept_eqb targets DEPARTMENTS List.filter negb map dept_key
                       fold_left In] in *;
    intuition subst; simplify_map_eq; reflexivity.
Qed.

Lemma collected_destinations f d k :
  In k (targets d) ->
  snd (fold_left (collect_one f) DEPARTMENTS ([], ∅)) !! (dept_key d, k) =
    if 0 <? f_ready f d then Some (f_split f d k) else None.
Proof.
  intros Hk. cbn [DEPARTMENTS fold_left].
  pose proof (collect_one_dests f [] ∅ ED d k Hk) as H1.
  destruct (collect_one f ([], ∅) ED) as [e1 m1].
  pose proof (collect_one_dests f e1 m1 SD d k Hk) as H2.
  destruct (collect_one f (e1, m1) SD) as [e2 m2].
  pose proof (collect_one_dests f e2 m2 CC d k Hk) as H3.
  destruct (collect_one f (e2, m2) CC) as [e3 m3].
  pose proof (collect_one_dests f e3 m3 SU d k Hk) as H4.
  destruct (collect_one f (e3, m3) SU) as [e4 m4].
  cbn [snd] in *. rewrite H4, H3, H2, H1. rewrite lookup_empty.
  destruct d; cbn [dept_eqb andb]; destruct (0 <? f_ready f _); reflexivity.
Qed.

(** X12.  When [_collect_hour_input] accepts a form, the [HourInput] it
    builds reads back the form: ready-to-exit counts, staff deltas and
    arrivals under every department key (Emergency's external arrivals
    as 0), a department's split only when its ready-to-exit count is
    positive; and for a form within the widgets' ranges no split total
    differs from its ready-to-exit count. *)
Theorem accepted_form_is_read_back f hi :
  fst (_collect_hour_input f) = Some hi ->
  (forall d,
     get0 (ready_to_exit hi) (dept_key d) = f_ready f d /\
     get0 (staff_delta hi) (dept_key d) = f_staff_delta f d /\
     get0 (external_arrivals hi) (dept_key d)
       = (if dept_eqb d ED then 0 else f_arrivals f d) /\
     (forall k, In k (targets d) ->
        get0 (destinations hi) (dept_key d, k)
          = if 0 <? f_ready f d then f_split f d k else 0)) /\
  ed_walkin_arrivals hi = f_walkin f /\
  ed_ambulance_arrivals hi = f_ambulance f /\
  ((forall d, 0 <= f_ready f d) -> ~ split_mismatch hi).
Proof.
  intros Hacc.
  assert (Hok : forall d, form_mismatchb f d = false).
  { intros d. destruct (form_mismatchb f d) eqn:Hm; [|reflexivity].
    assert (Hnone : fst (_collect_hour_input f) = None)
      by (apply collect_rejects_iff; eauto).
    congruence. }
  pose proof (collected_destinations f) as Hdest.
  unfold _collect_hour_input in Hacc.
  destruct (fold_left (collect_one f) DEPARTMENTS ([], ∅)) as [[|e errors] dests];
    cbn [fst snd] in *; [|discriminate].
  assert (Hhi : hi = mkInput
            (key_map (fun d => if dept_eqb d ED then 0 else f_arrivals f d) DEPARTMENTS)
            (f_walkin f) (f_ambulance f) (key_map (f_staff_delta f) DEPARTMENTS)
            (key_map (f_ready f) DEPARTMENTS) dests) by congruence.
  clear Hacc. subst hi.
  cbn [ready_to_exit staff_delta external_arrivals destinations ed_walkin_arrivals
       ed_ambulance_arrivals].
  assert (Hread : forall d k, In k (targets d) ->
            get0 dests (dept_key d, k) = if 0 <? f_ready f d then f_split f d k else 0).
  { intros d k Hk. unfold get0. rewrite (Hdest d k Hk).
    destruct (0 <? f_ready f d); reflexivity. }
  refine (conj _ (conj eq_refl (conj eq_refl _))).
  - intros d. rewrite !key_map_reads. repeat split. apply Hread.
  - intros Hready (d & Hmis). apply Hmis. clear Hmis.
    unfold split_total.
    cbn [ready_to_exit destinations]. rewrite key_map_reads.
    specialize (Hok d). unfold form_mismatchb in Hok. specialize (Hready d).
    assert (Hsum : sumZ (map (fun k => get0 dests (dept_key d, k)) (targets d))
                   = if 0 <? f_ready f d
                     then sumZ (map (f_split f d) (targets d)) else 0).
    { pose proof (Hread d) as Hr.
      destruct d; cbn [targets DEPARTMENTS List.filter negb dept_eqb map dept_key] in *;
        unfold sumZ; cbn [map fold_left];
        rewrite !Hr by (cbn; auto 10);
        destruct (0 <? f_ready f _); reflexivity. }
    rewrite Hsum.
    destruct (Z.ltb_spec 0 (f_ready f d)) as [Hpos | Hzero].
    + cbn [andb] in Hok. apply negb_false_iff, Z.eqb_eq in Hok. exact Hok.
    + lia.
Qed.

Lemma accepted_form_is_read_back_witness :
  exists hi, fst (_collect_hour_input two_exits_form) = Some hi /\
             get0 (ready_to_exit hi) "ED" = 2 /\
             get0 (destinations hi) ("ED", "SD") = 1 /\
             ~ split_mismatch hi.
Proof.
  destruct (fst (_collect_hour_input two_exits_form)) as [hi|] eqn:Hacc.
  - exists hi. split; [reflexivity|].
    destruct (accepted_form_is_read_back two_exits_form hi Hacc) as (Hd & _ & _ & Hm).
    destruct (Hd ED) as (Hr & _ & _ & Hs). cbn [dept_key] in Hr, Hs.
    split; [exact Hr|]. split.
    + rewrite (Hs "SD"); [reflexivity|]. cbn. auto 10.
    + apply Hm. intros d; destruct d; cbn; lia.
  - vm_compute in Hacc. discriminate.
Defined.

(** X13.  When a department's split has no negative entry, adds up to
    its ready-to-exit count, and that many patients are present, the
    departure step applies it as written: that many patients leave, the
    discharge entry is the discharged count, and every other entry goes
    whole to its target's [req_waiting_new]; nothing is clipped or
    spilled. *)
Theorem consistent_split_is_applied_as_written hi st dis d :
  (forall k, In k (targets d) -> 0 <= get0 (destinations hi) (dept_key d, k)) ->
  split_total hi d = get0 (ready_to_exit hi) (dept_key d) ->
  get0 (ready_to_exit hi) (dept_key d) <= patients (dept_of st d) ->
  let r := depart_from hi (st, dis) d in
  patients (dept_of (fst r) d)
    = patients (dept_of st d) - get0 (ready_to_exit hi) (dept_key d) /\
  pd_get (snd r) d = get0 (destinations hi) (dept_key d, "OUT") /\
  forall t,
    req_waiting_new (dept_of (fst r) t) =
      req_waiting_new (dept_of st t)
      + (if dept_eqb t d then 0 else get0 (destinations hi) (dept_key d, dept_key t)).
Proof.
  intros Hpos Hsum Hpat. cbv zeta. rewrite depart_from_spec.
  unfold departure_step_spec, actual_departures, _clamp_non_negative.
  unfold split_total, sumZ in Hsum.
  destruct d;
    cbn [targets DEPARTMENTS List.filter negb dept_eqb map dept_key fold_left] in Hsum;
    cbn [dept_key] in Hpat;
    pose proof (Hpos "OUT" ltac:(cbn; auto 10));
    try pose proof (Hpos "ED" ltac:(cbn; auto 10));
    try pose proof (Hpos "SD" ltac:(cbn; auto 10));
    try pose proof (Hpos "CC" ltac:(cbn; auto 10));
    try pose proof (Hpos "SU" ltac:(cbn; auto 10));
    clear Hpos; cbn [dept_key] in *;
    cbn [DEPARTMENTS fold_left destination_order List.filter map negb dept_eqb
         consume target_key dept_key credit fst snd];
    (refine (conj _ (conj _ _));
       [ cbn in *; unfold _clamp_non_negative; lia
       | cbn in *; unfold _clamp_non_negative; lia
       | intros t; destruct t; cbn in *; unfold _clamp_non_negative; lia ]).
Qed.

Lemma consistent_split_is_applied_as_written_witness :
  patients
    (dept_of (fst (depart_from two_transfers
                     (GameState_default, pd_init (fun _ => 0)) ED)) ED) = 14 /\
  pd_get (snd (depart_from two_transfers
                 (GameState_default, pd_init (fun _ => 0)) ED)) ED = 0 /\
  req_waiting_new
    (dept_of (fst (depart_from two_transfers
                     (GameState_default, pd_init (fun _ => 0)) ED)) SD) = 2.
Proof.
  destruct (consistent_split_is_applied_as_written two_transfers GameState_default
              (pd_init (fun _ => 0)) ED) as (Hp & Hd & Hn).
  - intros k _. unfold two_transfers, get0. cbn [destinations].
    destruct (({[("ED", "SD") := 2]} : gmap (string * string) Z) !! (dept_key ED, k))
      as [z|] eqn:Hz; [|cbn; lia].
    apply lookup_singleton_Some in Hz. destruct Hz as [_ <-]. cbn. lia.
  - vm_compute. reflexivity.
  - vm_compute. discriminate.
  - split; [rewrite Hp; vm_compute; reflexivity|].
    split; [rewrite Hd; vm_compute; reflexivity|].
    rewrite (Hn SD). vm_compute. reflexivity.
Defined.

(** ** The objective and the score *)

(** X14.  In a successful call the cumulative financial cost and
    quality penalty grow by the financial and quality parts of the
    objective at the solved values, except for the transfer requests
    newly routed to Emergency: the objective prices them as waiting
    (150 and 20 each), the totals count only Emergency's mature
    requests. *)
Theorem score_follows_objective solve st hi qw fr :
  lp_status (solve (hour_problem st hi qw fr)) = LpStatusOptimal ->
  feasible (hour_problem st hi qw fr)
    (rounded (lp_values (solve (hour_problem st hi qw fr)))) ->
  let v := rounded (lp_values (solve (hour_problem st hi qw fr))) in
  let s' := fst (optimize_hour solve st hi qw fr) in
  financial_cost (totals s') =
    financial_cost (totals st) + eval v (lp_financial (hour_problem st hi qw fr))
    - FINANCIAL ED waiting * requests_created st hi ED /\
  quality_penalty (totals s') =
    quality_penalty (totals st) + eval v (lp_quality (hour_problem st hi qw fr))
    - QUALITY ED waiting * requests_created st hi ED.
Proof.
  intros Hs Hf. cbv zeta. rewrite (optimize_hour_optimal _ _ _ _ _ Hs).
  destruct (commit_fields (hour_problem st hi qw fr)
              (lp_values (solve (hour_problem st hi qw fr)))
              (fst (pre_solve st hi)) (snd (pre_solve st hi))) as (_ & Hd & Ht).
  destruct (pre_solve_fields st hi) as (_ & Ht0 & _).
  rewrite <- (pre_solve_new st hi ED).
  unfold hour_problem in *.
  by_dept_in Hf.
  rewrite Ht, Ht0. unfold financial_cost, quality_penalty, others_add.
  rewrite !Hd.
  cbn [build_problem lp_financial lp_quality financial_expr quality_expr
       ed_waiting_end ext_wait_end ed_walkin_wait_end ed_ambulance_wait_end
       req_wait_end fold_left eval FINANCIAL QUALITY
       ed_diversions ed_waiting ed_extra_staff dep_arrivals_waiting
       dep_requests_waiting dep_extra_staff o_SD o_CC o_SU dept_eqb
       ext_waiting ed_walkin_waiting ed_ambulance_waiting req_waiting_mature
       req_waiting_new].
  split; lia.
Qed.

Lemma score_follows_objective_witness :
  financial_cost
    (totals (fst (optimize_hour diverting_solver GameState_default two_ambulances 1 300)))
    = 5150 /\
  quality_penalty
    (totals (fst (optimize_hour diverting_solver GameState_default two_ambulances 1 300)))
    = 220.
Proof.
  destruct (score_follows_objective diverting_solver GameState_default two_ambulances
              1 300) as (Hfin & Hq).
  - reflexivity.
  - vm_compute. reflexivity.
  - rewrite Hfin, Hq. split; vm_compute; reflexivity.
Defined.

(** ** C3: a call that raised *)

(** C3, counterexample.  From the initial state, two patients are sent
    from Emergency to Step-Down in a call with quality weight -9: its
    program has no optimal point, so the solve cannot succeed and the
    call raises at hour 1.  The two requests are in Step-Down's
    [req_waiting_new].  The next call is again a call for hour 1, its
    program counts the two requests in its admission bound, and
    admitting both satisfies it. *)
Lemma failed_hour_matures_requests :
  (forall a, ~ optimal (hour_problem GameState_default two_transfers (-9) 300) a) /\
  snd (optimize_hour unbounded_solver GameState_default two_transfers (-9) 300)
    = Raised 1 LpStatusUnbounded /\
  requests_created GameState_default two_transfers SD = 2 /\
  req_admit_bound
    (hour_problem
       (fst (optimize_hour unbounded_solver GameState_default two_transfers (-9) 300))
       no_input 1 300) SD = Some 2 /\
  lp_hour
    (hour_problem
       (fst (optimize_hour unbounded_solver GameState_default two_transfers (-9) 300))
       no_input 1 300) = 1 /\
  feasible
    (hour_problem
       (fst (optimize_hour unbounded_solver GameState_default two_transfers (-9) 300))
       no_input 1 300) admit_two_requests /\
  ~ matures_at_hour_plus_one.
Proof.
  split; [|split; [|split; [|split; [|split; [|split]]]]].
  2, 3, 4, 5, 6: vm_compute; reflexivity.
  - intros a Ha. pose proof Ha as [Hf _]. revert Ha.
    apply (one_more_staff_pays_below_minus_8
             (fst (pre_solve GameState_default two_transfers)) (-9) 300 a);
      [reflexivity | exact Hf].
  - intros Hclaim.
    destruct (Hclaim unbounded_solver GameState_default two_transfers (-9)%Q 300%Q SD
                no_input 1%Q 300%Q) as [_ Hhour].
    + vm_compute. reflexivity.
    + assert (Hb : req_admit_bound
                (hour_problem
                   (fst (optimize_hour unbounded_solver GameState_default
                           two_transfers (-9) 300)) no_input 1 300) SD
              = Some (req_waiting_mature
                        (dept_of (fst (optimize_hour unbounded_solver GameState_default
                                         two_transfers (-9) 300)) SD)
                      + requests_created GameState_default two_transfers SD))
        by (vm_compute; reflexivity).
      apply Hhour in Hb. vm_compute in Hb. discriminate.
Qed.
